(** * llm-probe: evaluation and monitoring core

    A shallow embedding of the Python sources of the evaluation engine

      - [src/metrics/text_similarity.py]
      - [src/evaluators/summary_evaluator.py]
      - [src/performance/performance_collector.py]
      - [src/monitoring/metrics_aggregator.py]

    together with the properties stated about them.

    Conventions of the embedding:

      - a Python [int] is a [Z];
      - a Python [float] is an IEEE 754 binary64 number, represented by
        the Standard Library's [spec_float] with precision 53 and
        maximal exponent 1024, so that every arithmetic operation
        rounds the way the interpreter does;
      - a Python [str] is a [string] whose characters are the code
        points below 256: texts with characters beyond Latin-1 are
        outside the embedding;
      - a function that may raise returns a [result];
      - a [dict] is a [gmap].

    Where the interpreter leaves a result to the platform or to its
    version, the definition concerned says which behaviour it takes. *)

From Stdlib Require Import ZArith List String Ascii QArith Qround Bool Lia.
From Stdlib Require Import Floats.SpecFloat.
From Stdlib Require Import Numbers.DecimalString.
From Stdlib Require Import DecimalPos DecimalZ.
From stdpp Require Import gmap gmultiset strings list.

Local Open Scope string_scope.
Local Open Scope Z_scope.

(** * Python built-ins used by the sources *)

Module Py.

(** ** Exceptions and fallible computations *)

Inductive exn : Type :=
| ValueError (msg : string)
| OverflowError (msg : string)
| ZeroDivisionError (msg : string)
| IndexError (msg : string).

Inductive result (A : Type) : Type :=
| Ok (a : A)
| Raise (e : exn).

Arguments Ok {A} a.
Arguments Raise {A} e.

#[global] Instance result_ret : MRet result := fun A a => Ok a.

#[global] Instance result_bind : MBind result := fun A B k m =>
  match m with
  | Ok a => k a
  | Raise e => Raise e
  end.

(** ** Integers as text: [str(n)] and [f"{n}"] *)

Definition str_of_int (n : Z) : string :=
  NilZero.string_of_int (Z.to_int n).

(** ** Floats *)

Definition prec : Z := 53.
Definition emax : Z := 1024.

Definition float : Type := spec_float.

Definition fadd : float -> float -> float := SFadd prec emax.
Definition fsub : float -> float -> float := SFsub prec emax.
Definition fmul : float -> float -> float := SFmul prec emax.
Definition fdiv_ieee : float -> float -> float := SFdiv prec emax.
Definition fsqrt_ieee : float -> float := SFsqrt prec emax.
Definition fopp : float -> float := SFopp.
Definition fabs : float -> float := SFabs.
Definition feqb : float -> float -> bool := SFeqb.
Definition fltb : float -> float -> bool := SFltb.
Definition fleb : float -> float -> bool := SFleb.

(** [float(n)] for an integer [n]: the nearest double. *)
Definition float_of_Z (n : Z) : float := binary_normalize prec emax n 0 false.

(** The conversion of an integer operand in mixed arithmetic, which
    raises when the integer is out of the range of doubles. *)
Definition float_of_int (n : Z) : result float :=
  match float_of_Z n with
  | S754_infinity _ => Raise (OverflowError "int too large to convert to float")
  | x => Ok x
  end.

Definition fzero : float := S754_zero false.

(** A decimal literal [n/d] of the source text, such as [0.05] read as
    [dec 5 100]: the double nearest to the quotient. *)
Definition dec (n d : Z) : float := fdiv_ieee (float_of_Z n) (float_of_Z d).

Definition is_zero (x : float) : bool :=
  match x with
  | S754_zero _ => true
  | _ => false
  end.

(** [x / y] on floats raises on a zero divisor. *)
Definition truediv (x y : float) : result float :=
  if is_zero y then Raise (ZeroDivisionError "float division by zero")
  else Ok (fdiv_ieee x y).

(** [a / b] on two integers: the double nearest to the exact
    quotient, whatever the size of [a] and [b]. *)
Definition raw_of_Z (n : Z) : float :=
  match n with
  | Z0 => S754_zero false
  | Zpos p => S754_finite false p 0
  | Zneg p => S754_finite true p 0
  end.

Definition int_truediv (a b : Z) : result float :=
  if b =? 0 then Raise (ZeroDivisionError "division by zero")
  else
    match fdiv_ieee (raw_of_Z a) (raw_of_Z b) with
    | S754_infinity _ =>
        Raise (OverflowError "integer division result too large for a float")
    | q => Ok q
    end.

(** The double nearest to a rational with a positive denominator. *)
Definition float_of_Q (q : Q) : float :=
  fdiv_ieee (raw_of_Z (Qnum q)) (raw_of_Z (Zpos (Qden q))).

(** [math.ceil(x)] and [int(x)]. *)
Definition math_ceil (x : float) : result Z :=
  match x with
  | S754_zero _ => Ok 0
  | S754_finite s m e =>
      let n := if s then Zneg m else Zpos m in
      Ok (if 0 <=? e then n * 2 ^ e else - ((- n) / 2 ^ (- e)))
  | S754_infinity _ =>
      Raise (OverflowError "cannot convert float infinity to integer")
  | S754_nan => Raise (ValueError "cannot convert float NaN to integer")
  end.

Definition int_of_float (x : float) : result Z :=
  match x with
  | S754_zero _ => Ok 0
  | S754_finite s m e =>
      let n := if s then Zneg m else Zpos m in
      Ok (if 0 <=? e then n * 2 ^ e else Z.quot n (2 ^ (- e)))
  | S754_infinity _ =>
      Raise (OverflowError "cannot convert float infinity to integer")
  | S754_nan => Raise (ValueError "cannot convert float NaN to integer")
  end.

(** [math.sqrt(x)]. *)
Definition math_sqrt (x : float) : result float :=
  match x with
  | S754_finite true _ _ | S754_infinity true =>
      Raise (ValueError "math domain error")
  | _ => Ok (fsqrt_ieee x)
  end.

(** [x ** 2]: the square, raising when a finite [x] overflows.  The
    square is taken correctly rounded; the interpreter hands it to
    the [pow] of the C library, whose result may differ from it in
    the last place. *)
Definition pow2 (x : float) : result float :=
  match x, fmul x x with
  | S754_finite _ _ _, S754_infinity _ =>
      Raise (OverflowError "(34, 'Numerical result out of range')")
  | _, y => Ok y
  end.

(** [sum(values)] over floats, started from the integer [0], adding
    from left to right with a rounding at each step; interpreters
    from version 3.12 on compensate these roundings, which is not
    modelled. *)
Definition fsum (values : list float) : float :=
  fold_left fadd values (float_of_Z 0).

(** [min(values)] and [max(values)]: the first extremal element. *)
Definition fmin_list (values : list float) : result float :=
  match values with
  | [] => Raise (ValueError "min() arg is an empty sequence")
  | first :: rest =>
      Ok (fold_left (fun best item => if fltb item best then item else best)
                    rest first)
  end.

Definition fmax_list (values : list float) : result float :=
  match values with
  | [] => Raise (ValueError "max() arg is an empty sequence")
  | first :: rest =>
      Ok (fold_left (fun best item => if fltb best item then item else best)
                    rest first)
  end.

(** [max(a, b)] *)
Definition fmax2 (a b : float) : float := if fltb a b then b else a.

(** [values.sort()]: a stable sort by [<].  On a list that holds a
    NaN, which [<] orders with nothing, [list.sort] leaves an order
    of its own that is not modelled. *)
Fixpoint insert_sorted (x : float) (sorted : list float) : list float :=
  match sorted with
  | [] => [x]
  | y :: rest =>
      if fltb x y then x :: y :: rest else y :: insert_sorted x rest
  end.

Definition fsort (values : list float) : list float :=
  fold_left (fun sorted x => insert_sorted x sorted) values [].

(** [x or fallback] on an optional number. *)
Definition or_float (x : option float) (fallback : float) : float :=
  match x with
  | Some v => if is_zero v then fallback else v
  | None => fallback
  end.

Definition or_int (x : option Z) (fallback : Z) : Z :=
  match x with
  | Some v => if v =? 0 then fallback else v
  | None => fallback
  end.

(** ** Fixed-point formatting: [f"{x:.{nd}f}"] *)

Fixpoint zeros (n : nat) : string :=
  match n with
  | O => ""
  | S n' => String "0" (zeros n')
  end.

(** The integer nearest to [m * 2^e * 10^nd], ties to even. *)
Definition scaled_round (m : positive) (e : Z) (nd : nat) : Z :=
  let p := Zpos m * 10 ^ Z.of_nat nd in
  if 0 <=? e then p * 2 ^ e
  else
    let d := 2 ^ (- e) in
    let q := p / d in
    let r := p mod d in
    match 2 * r ?= d with
    | Lt => q
    | Gt => q + 1
    | Eq => if Z.even q then q else q + 1
    end.

Definition place_point (digits : string) (nd : nat) : string :=
  let len := String.length digits in
  let padded := zeros (S nd - len) ++ digits in
  let k := (String.length padded - nd)%nat in
  match nd with
  | O => padded
  | _ => substring 0 k padded ++ "." ++ substring k nd padded
  end.

Definition format_f (nd : nat) (x : float) : string :=
  match x with
  | S754_nan => "nan"
  | S754_infinity s => if s then "-inf" else "inf"
  | S754_zero s => (if s then "-" else "") ++ place_point "0" nd
  | S754_finite s m e =>
      (if s then "-" else "")
        ++ place_point (str_of_int (scaled_round m e nd)) nd
  end.

End Py.

Import Py.

(** ** Characters and strings *)

Module Str.

Definition code (c : ascii) : Z := Z.of_N (N_of_ascii c).

Definition between (lo hi : Z) (c : ascii) : bool :=
  (lo <=? code c) && (code c <=? hi).

(** [str.isalnum], [str.isupper] and [str.isspace] on one character. *)
Definition is_alnum (c : ascii) : bool :=
  between 48 57 c || between 65 90 c || between 97 122 c
  || (code c =? 170) || between 178 179 c || (code c =? 181)
  || between 185 186 c || between 188 190 c
  || between 192 214 c || between 216 246 c || between 248 255 c.

Definition is_upper (c : ascii) : bool :=
  between 65 90 c || between 192 214 c || between 216 222 c.

Definition is_space (c : ascii) : bool :=
  between 9 13 c || between 28 32 c || (code c =? 133) || (code c =? 160).

(** The class [\w] of the [re] module: alphanumerics and the underscore. *)
Definition is_word (c : ascii) : bool := is_alnum c || (code c =? 95).

Definition lower_char (c : ascii) : ascii :=
  if is_upper c then ascii_of_N (N_of_ascii c + 32) else c.

Fixpoint map_chars (f : ascii -> ascii) (s : string) : string :=
  match s with
  | EmptyString => EmptyString
  | String c s' => String (f c) (map_chars f s')
  end.

(** [s.lower()]. *)
Definition lower (s : string) : string := map_chars lower_char s.

Definition is_empty (s : string) : bool :=
  match s with
  | EmptyString => true
  | _ => false
  end.

(** [s.split()]: maximal runs of characters that are not whitespace.
    [cur] is the run being read. *)
Fixpoint split_from (cur : string) (s : string) : list string :=
  match s with
  | EmptyString => if is_empty cur then [] else [cur]
  | String c s' =>
      if is_space c
      then (if is_empty cur then split_from "" s'
            else cur :: split_from "" s')
      else split_from (cur ++ String c "") s'
  end.

Definition split (s : string) : list string := split_from "" s.

(** [sep.join(parts)]. *)
Fixpoint join (sep : string) (parts : list string) : string :=
  match parts with
  | [] => ""
  | [p] => p
  | p :: rest => p ++ sep ++ join sep rest
  end.

(** [s.startswith(t)]. *)
Fixpoint startswith (t s : string) : bool :=
  match t, s with
  | EmptyString, _ => true
  | String a t', String b s' => Ascii.eqb a b && startswith t' s'
  | String _ _, EmptyString => false
  end.

(** The word boundary [\b] between a character [before] and a
    character [after], either of which is missing at the ends. *)
Definition at_boundary (before after : option ascii) : bool :=
  xorb (from_option is_word false before) (from_option is_word false after).

Definition head_char (s : string) : option ascii :=
  match s with
  | EmptyString => None
  | String c _ => Some c
  end.

Fixpoint drop_chars (n : nat) (s : string) : string :=
  match n, s with
  | O, _ => s
  | S n', String _ s' => drop_chars n' s'
  | S _, EmptyString => EmptyString
  end.

Fixpoint last_char (prev : option ascii) (s : string) : option ascii :=
  match s with
  | EmptyString => prev
  | String c s' => last_char (Some c) s'
  end.

(** Does the pattern [\b] + literal + [\b] match with the literal
    starting at the head of [s], given the character before it? *)
Definition word_match_here (literal : string) (prev : option ascii)
    (s : string) : bool :=
  startswith literal s
  && at_boundary prev (head_char s)
  && at_boundary (last_char prev literal)
                 (head_char (drop_chars (String.length literal) s)).

(** [re.search(r'\b' + re.escape(literal) + r'\b', s)] finds a match. *)
Fixpoint search_word_from (literal : string) (prev : option ascii)
    (s : string) : bool :=
  word_match_here literal prev s
  || match s with
     | EmptyString => false
     | String c s' => search_word_from literal (Some c) s'
     end.

Definition search_word (literal s : string) : bool :=
  search_word_from literal None s.

End Str.

(** ** Lists *)

Module Seq.

(** [range(k)]. *)
Definition range (k : Z) : list Z := map Z.of_nat (seq 0 (Z.to_nat k)).

(** A slice bound as the interpreter normalises it for a sequence of
    length [len]. *)
Definition clamp_index (len k : Z) : Z :=
  if k <? 0 then Z.max 0 (k + len) else Z.min k len.

(** [l[lo:hi]]. *)
Definition slice {A : Type} (l : list A) (lo hi : Z) : list A :=
  let len := Z.of_nat (length l) in
  let lo' := clamp_index len lo in
  let hi' := clamp_index len hi in
  take (Z.to_nat (hi' - lo')) (drop (Z.to_nat lo') l).

(** [l[-count:]]. *)
Definition last_n {A : Type} (l : list A) (count : Z) : list A :=
  let len := Z.of_nat (length l) in
  drop (Z.to_nat (clamp_index len (- count))) l.

(** [sum(values)] over integers. *)
Definition sum (values : list Z) : Z := fold_left Z.add values 0.

End Seq.

(** * Similarity metrics ([text_similarity.py]) *)

Module TextSimilarity.

(** The quotient [a / b] of two counts, kept exact.  The interpreter
    returns the double nearest to this rational ([Py.float_of_Q]);
    rounding to nearest preserves the order of two such quotients. *)
Definition ratio (a b : Z) : Q := (inject_Z a / inject_Z b)%Q.

(** ** Private helpers *)

(** [re.sub(r'[^\w\s]', ' ', text)] *)
Definition replace_punctuation (text : string) : string :=
  Str.map_chars
    (fun c => if Str.is_word c || Str.is_space c then c else " "%char) text.

Definition _tokenize (text : string) : list string :=
  let text := replace_punctuation (Str.lower text) in
  filter (fun word => Str.is_empty word = false) (Str.split text).

Definition _get_ngrams (tokens : list string) (n : Z) : list (list string) :=
  map (fun i => Seq.slice tokens i (i + n))
      (Seq.range (Z.of_nat (length tokens) - n + 1)).

Definition _count_ngrams (ngrams : list (list string)) : gmap string Z :=
  foldl
    (fun (counts : gmap string Z) ngram =>
       let key := Str.join " " ngram in
       <[key := default 0 (counts !! key) + 1]> counts)
    ∅ ngrams.

(** ** Set-based metrics *)

Definition word_set (text : string) : gset string :=
  list_to_set (_tokenize text).

Definition len_set (s : gset string) : Z := Z.of_nat (size s).

Definition jaccard_similarity (text1 text2 : string) : Q :=
  let words1 := word_set text1 in
  let words2 := word_set text2 in
  let intersection := words1 ∩ words2 in
  let union := words1 ∪ words2 in
  if len_set union =? 0 then 0%Q
  else ratio (len_set intersection) (len_set union).

Definition overlap_coefficient (text1 text2 : string) : Q :=
  let words1 := word_set text1 in
  let words2 := word_set text2 in
  let intersection := words1 ∩ words2 in
  let min_size := Z.min (len_set words1) (len_set words2) in
  if min_size =? 0 then 0%Q
  else ratio (len_set intersection) min_size.

(** ** Cosine and composite similarity *)

(** [Counter(words)[word]] *)
Definition counter (words : list string) (word : string) : Z :=
  Z.of_nat (length (filter (fun w => w = word) words)).

(** The divisor of the last line is a product of square roots of
    positive integers, hence never zero: the division cannot raise. *)
Definition cosine_similarity (text1 text2 : string) : float :=
  let words1 := _tokenize text1 in
  let words2 := _tokenize text2 in
  let vocab := elements (list_to_set (words1 ++ words2)%list : gset string) in
  let vec1 := map (counter words1) vocab in
  let vec2 := map (counter words2) vocab in
  let dot_product := Seq.sum (zip_with Z.mul vec1 vec2) in
  let mag1 := fsqrt_ieee (float_of_Z (Seq.sum (map (fun v => v * v) vec1))) in
  let mag2 := fsqrt_ieee (float_of_Z (Seq.sum (map (fun v => v * v) vec2))) in
  if is_zero mag1 || is_zero mag2 then fzero
  else fdiv_ieee (float_of_Z dot_product) (fmul mag1 mag2).

Definition composite_similarity (text1 text2 : string) : float :=
  let cosine := cosine_similarity text1 text2 in
  let jaccard := float_of_Q (jaccard_similarity text1 text2) in
  let overlap := float_of_Q (overlap_coefficient text1 text2) in
  fadd (fadd (fmul (dec 5 10) cosine) (fmul (dec 3 10) jaccard))
       (fmul (dec 2 10) overlap).

(** ** Required terms and length *)

Record terms_result : Type := {
  terms_passed : bool;
  coverage : Q;
  missing : list string
}.

Definition term_found (text_lower term : string) : bool :=
  Str.search_word (Str.lower term) text_lower.

Definition contains_required_terms (text : string)
    (required_terms : list string) : terms_result :=
  if Z.of_nat (length required_terms) =? 0
  then {| terms_passed := true; coverage := 1%Q; missing := [] |}
  else
    let text_lower := Str.lower text in
    let found := filter (fun term => term_found text_lower term = true)
                        required_terms in
    let missing := filter (fun term => term_found text_lower term = false)
                          required_terms in
    {| terms_passed :=
         Z.of_nat (length found) =? Z.of_nat (length required_terms);
       coverage :=
         ratio (Z.of_nat (length found)) (Z.of_nat (length required_terms));
       missing := missing |}.

Record length_result : Type := {
  length_passed : bool;
  word_count : Z
}.

Definition validate_length (text : string) (min_words max_words : Z)
    : result length_result :=
  if (min_words <? 0) || (max_words <? 0)
  then Raise (ValueError "Word count limits must be non-negative")
  else if min_words >? max_words
  then Raise (ValueError
                ("min_words (" ++ str_of_int min_words
                 ++ ") cannot be greater than max_words ("
                 ++ str_of_int max_words ++ ")"))
  else
    let words := _tokenize text in
    let word_count := Z.of_nat (length words) in
    Ok {| length_passed :=
            (min_words <=? word_count) && (word_count <=? max_words);
          word_count := word_count |}.

(** ** N-gram precision and BLEU *)

(** One turn of the matching loop: the state is the number of matches
    so far and the reference counts not yet used up. *)
Definition match_step (st : Z * gmap string Z) (ngram : list string)
    : Z * gmap string Z :=
  let '(matches, ref_counts) := st in
  let key := Str.join " " ngram in
  match ref_counts !! key with
  | Some c =>
      if c >? 0 then (matches + 1, <[key := c - 1]> ref_counts)
      else (matches, ref_counts)
  | None => (matches, ref_counts)
  end.

Definition ngram_precision (reference candidate : string) (n : Z) : Q :=
  let ref_ngrams := _get_ngrams (_tokenize reference) n in
  let cand_ngrams := _get_ngrams (_tokenize candidate) n in
  if Z.of_nat (length cand_ngrams) =? 0 then 0%Q
  else
    let ref_counts := _count_ngrams ref_ngrams in
    let '(matches, _) := foldl match_step (0, ref_counts) cand_ngrams in
    ratio matches (Z.of_nat (length cand_ngrams)).

Definition bleu_score (reference candidate : string) : float :=
  let p1 := float_of_Q (ngram_precision reference candidate 1) in
  let p2 := float_of_Q (ngram_precision reference candidate 2) in
  fdiv_ieee (fadd p1 p2) (float_of_Z 2).

End TextSimilarity.

(** * Summary evaluator ([summary_evaluator.py]) *)

Module SummaryEvaluator.

Import TextSimilarity.

(** The [thresholds] dictionary of a golden test case, with the four
    keys the evaluator reads. *)
Record Thresholds : Type := {
  min_semantic_similarity : float;
  min_length_words : Z;
  max_length_words : Z;
  required_terms : list string
}.

Record GoldenTestCase : Type := {
  id : string;
  category : string;
  difficulty : string;
  transcript : string;
  golden_summary : string;
  thresholds : Thresholds
}.

Record EvaluationResult : Type := {
  passed : bool;
  similarity : float;
  bleu : float;
  length_check : length_result;
  required_terms_check : terms_result;
  failures : list string
}.

Definition similarity_message (similarity threshold : float) : string :=
  "Similarity " ++ format_f 2 similarity ++ " below threshold "
    ++ format_f 2 threshold.

Definition length_message (word_count min_words max_words : Z) : string :=
  "Length " ++ str_of_int word_count ++ " words outside range ["
    ++ str_of_int min_words ++ ", " ++ str_of_int max_words ++ "]".

Definition terms_message (missing : list string) : string :=
  "Missing required terms: " ++ Str.join ", " missing.

Definition evaluate (summary : string) (test_case : GoldenTestCase)
    : result EvaluationResult :=
  let th := thresholds test_case in
  let failures : list string := [] in
  let similarity := composite_similarity summary (golden_summary test_case) in
  let failures :=
    if fltb similarity (min_semantic_similarity th)
    then (failures ++ [similarity_message similarity
                         (min_semantic_similarity th)])%list
    else failures in
  let bleu := bleu_score summary (golden_summary test_case) in
  length_check ←
    validate_length summary (min_length_words th) (max_length_words th);
  let failures :=
    if negb (length_passed length_check)
    then (failures ++ [length_message (word_count length_check)
                         (min_length_words th) (max_length_words th)])%list
    else failures in
  let required := contains_required_terms summary (required_terms th) in
  let failures :=
    if negb (terms_passed required)
    then (failures ++ [terms_message (missing required)])%list
    else failures in
  Ok {| passed := Z.of_nat (length failures) =? 0;
        similarity := similarity;
        bleu := bleu;
        length_check := length_check;
        required_terms_check := required;
        failures := failures |}.

(** ** Consistency across several summaries *)



Fixpoint squared_deviations (values : list float) (mean : float)
    : result (list float) :=
  match values with
  | [] => Ok []
  | val :: rest =>
      sq ← pow2 (fsub val mean);
      sqs ← squared_deviations rest mean;
      Ok (sq :: sqs)
  end.


End SummaryEvaluator.

(** * Performance collector ([performance_collector.py]) *)

Module PerformanceCollector.

(** Price per million tokens: input rate and output rate. *)
Definition MODEL_PRICING : gmap string (float * float) :=
  list_to_map
    [ ("llama3.1:8b", (float_of_Z 0, float_of_Z 0));
      ("llama3.2:latest", (float_of_Z 0, float_of_Z 0));
      ("mistral:7b", (float_of_Z 0, float_of_Z 0));
      ("gpt-4", (float_of_Z 30, float_of_Z 60));
      ("gpt-4-turbo", (float_of_Z 10, float_of_Z 30));
      ("gpt-3.5-turbo", (dec 5 10, dec 15 10));
      ("claude-3-opus", (float_of_Z 15, float_of_Z 75));
      ("claude-3-sonnet", (float_of_Z 3, float_of_Z 15));
      ("claude-3-haiku", (dec 25 100, dec 125 100)) ].

Module TokenUsage.
Record t : Type := mk {
  input_tokens : Z;
  output_tokens : Z;
  model : string
}.
End TokenUsage.

Module Metric.
Record t : Type := mk {
  request_id : string;
  start_time : float;
  end_time : option float;
  latency : option float;
  input_tokens : option Z;
  output_tokens : option Z;
  total_tokens : option Z;
  model : option string;
  cost : option float;
  success : bool;
  error : option string
}.
End Metric.

Module Report.
(** [start_time] and [end_time] hold the POSIX timestamp, in
    seconds, that the source hands to [datetime.fromtimestamp]. *)
Record t : Type := mk {
  total_requests : Z;
  successful_requests : Z;
  failed_requests : Z;
  error_rate : float;
  mean_latency : float;
  median_latency : float;
  p95_latency : float;
  p99_latency : float;
  min_latency : float;
  max_latency : float;
  std_deviation : float;
  total_input_tokens : Z;
  total_output_tokens : Z;
  total_tokens : Z;
  mean_input_tokens : float;
  mean_output_tokens : float;
  total_cost : float;
  mean_cost : float;
  duration : float;
  requests_per_second : float;
  tokens_per_second : float;
  start_time : float;
  end_time : float
}.
End Report.

(** The collector: finalized metrics, in-flight requests by id, and
    the counter the ids are drawn from. *)
Record collector : Type := {
  _metrics : list Metric.t;
  _active_requests : gmap string Metric.t;
  _request_counter : Z
}.

Definition init : collector :=
  {| _metrics := []; _active_requests := ∅; _request_counter := 0 |}.

(** [start_request]: [clock_id] and [clock_start] are the two readings
    of [time.time()], in seconds.  Returns the id bound to the handle. *)
Definition start_request (clock_id clock_start : float) (self : collector)
    : collector * result string :=
  let counter := _request_counter self + 1 in
  let self := {| _metrics := _metrics self;
                 _active_requests := _active_requests self;
                 _request_counter := counter |} in
  match int_of_float (fmul clock_id (float_of_Z 1000)) with
  | Raise e => (self, Raise e)
  | Ok stamp =>
      let request_id :=
        "req_" ++ str_of_int counter ++ "_" ++ str_of_int stamp in
      let metric :=
        Metric.mk request_id (fmul clock_start (float_of_Z 1000))
                  None None None None None None None true None in
      ({| _metrics := _metrics self;
          _active_requests := <[request_id := metric]> (_active_requests self);
          _request_counter := counter |},
       Ok request_id)
  end.

Definition _calculate_cost (usage : TokenUsage.t) : result float :=
  match MODEL_PRICING !! TokenUsage.model usage with
  | None => Ok fzero
  | Some (input_rate, output_rate) =>
      input_share ← int_truediv (TokenUsage.input_tokens usage) 1000000;
      let input_cost := fmul input_share input_rate in
      output_share ← int_truediv (TokenUsage.output_tokens usage) 1000000;
      let output_cost := fmul output_share output_rate in
      Ok (fadd input_cost output_cost)
  end.

(** Truth value of an optional error text: [None] and the empty
    string are both false. *)
Definition truthy_text (error : option string) : bool :=
  match error with
  | Some text => negb (Str.is_empty text)
  | None => false
  end.

(** [_end_request]: [clock] is the reading of [time.time()].  The
    metric is updated in place, so when the cost computation raises,
    the in-flight entry keeps the fields assigned before it. *)
Definition _end_request (clock : float) (self : collector)
    (request_id : string) (usage : option TokenUsage.t)
    (error : option string) : collector * result unit :=
  match _active_requests self !! request_id with
  | None =>
      (self, Raise (ValueError ("Request " ++ request_id ++ " not found")))
  | Some metric =>
      let end_time := fmul clock (float_of_Z 1000) in
      let latency := fsub end_time (Metric.start_time metric) in
      let failed := truthy_text error in
      let timed :=
        Metric.mk (Metric.request_id metric) (Metric.start_time metric)
                  (Some end_time) (Some latency)
                  (Metric.input_tokens metric) (Metric.output_tokens metric)
                  (Metric.total_tokens metric) (Metric.model metric)
                  (Metric.cost metric)
                  (if failed then false else Metric.success metric)
                  (if failed then error else Metric.error metric) in
      let finish (metric : Metric.t) : collector * result unit :=
        ({| _metrics := (_metrics self ++ [metric])%list;
            _active_requests := delete request_id (_active_requests self);
            _request_counter := _request_counter self |},
         Ok tt) in
      match usage with
      | None => finish timed
      | Some u =>
          let counted :=
            Metric.mk (Metric.request_id timed) (Metric.start_time timed)
                      (Metric.end_time timed) (Metric.latency timed)
                      (Some (TokenUsage.input_tokens u))
                      (Some (TokenUsage.output_tokens u))
                      (Some (TokenUsage.input_tokens u
                             + TokenUsage.output_tokens u))
                      (Some (TokenUsage.model u))
                      (Metric.cost timed)
                      (Metric.success timed) (Metric.error timed) in
          match _calculate_cost u with
          | Raise e =>
              ({| _metrics := _metrics self;
                  _active_requests :=
                    <[request_id := counted]> (_active_requests self);
                  _request_counter := _request_counter self |},
               Raise e)
          | Ok c =>
              finish
                (Metric.mk (Metric.request_id counted)
                           (Metric.start_time counted)
                           (Metric.end_time counted) (Metric.latency counted)
                           (Metric.input_tokens counted)
                           (Metric.output_tokens counted)
                           (Metric.total_tokens counted)
                           (Metric.model counted)
                           (Some c)
                           (Metric.success counted) (Metric.error counted))
          end
      end
  end.

Definition record_metric (metric : Metric.t) (self : collector) : collector :=
  {| _metrics := (_metrics self ++ [metric])%list;
     _active_requests := _active_requests self;
     _request_counter := _request_counter self |}.

Definition clear (self : collector) : collector := init.

(** ** Statistical helpers *)

(** [_mean] on a sequence of floats and on a sequence of integers. *)
Definition _mean (values : list float) : float :=
  if Z.of_nat (length values) =? 0 then fzero
  else fdiv_ieee (fsum values) (float_of_Z (Z.of_nat (length values))).

Definition _mean_int (values : list Z) : result float :=
  if Z.of_nat (length values) =? 0 then Ok fzero
  else int_truediv (Seq.sum values) (Z.of_nat (length values)).

Fixpoint squared_deviations (values : list float) (mean : float)
    : result (list float) :=
  match values with
  | [] => Ok []
  | val :: rest =>
      sq ← pow2 (fsub val mean);
      sqs ← squared_deviations rest mean;
      Ok (sq :: sqs)
  end.

Definition _standard_deviation (values : list float) (mean : float)
    : result float :=
  if Z.of_nat (length values) =? 0 then Ok fzero
  else
    sqs ← squared_deviations values mean;
    let variance :=
      fdiv_ieee (fsum sqs) (float_of_Z (Z.of_nat (length values))) in
    math_sqrt variance.

Definition _percentile (sorted_values : list float) (p : float)
    : result float :=
  let len := Z.of_nat (length sorted_values) in
  if len =? 0 then Ok fzero
  else
    rank ← math_ceil (fmul (fdiv_ieee p (float_of_Z 100)) (float_of_Z len));
    let index := rank - 1 in
    let index := Z.max 0 (Z.min index (len - 1)) in
    Ok (default fzero (sorted_values !! Z.to_nat index)).

(** ** The report *)

(** The two time stamps of the report are kept as seconds since the
    epoch.  Their conversion by [datetime.fromtimestamp], which
    raises on a time that is not finite or falls outside the years 1
    to 9999 of the local calendar, is not modelled: the definition
    stands for the code on collectors whose times are in that
    range. *)
Definition generate_report (self : collector) : result Report.t :=
  let metrics := _metrics self in
  if Z.of_nat (length metrics) =? 0
  then Raise (ValueError "No metrics recorded")
  else
    let successful := filter (fun m => Metric.success m = true) metrics in
    let failed := filter (fun m => Metric.success m = false) metrics in
    let latencies := fsort (omap Metric.latency successful) in
    if Z.of_nat (length latencies) =? 0
    then Raise (ValueError
                  "No successful requests with latency data to generate report")
    else
      let mean_latency := _mean latencies in
      std_deviation ← _standard_deviation latencies mean_latency;
      let input_tokens :=
        map (fun m => or_int (Metric.input_tokens m) 0) successful in
      let output_tokens :=
        map (fun m => or_int (Metric.output_tokens m) 0) successful in
      let costs := map (fun m => or_float (Metric.cost m) fzero) successful in
      let start_times := map Metric.start_time metrics in
      let end_times :=
        map (fun m => or_float (Metric.end_time m) (Metric.start_time m))
            metrics in
      min_time ← fmin_list start_times;
      max_time ← fmax_list end_times;
      let min_duration_seconds := dec 1 1000 in
      let duration_raw :=
        fdiv_ieee (fsub max_time min_time) (float_of_Z 1000) in
      let duration := fmax2 duration_raw min_duration_seconds in
      let total_input_tokens := Seq.sum input_tokens in
      let total_output_tokens := Seq.sum output_tokens in
      let total_tokens := total_input_tokens + total_output_tokens in
      let total_cost := fsum costs in
      error_rate ←
        int_truediv (Z.of_nat (length failed)) (Z.of_nat (length metrics));
      median_latency ← _percentile latencies (float_of_Z 50);
      p95_latency ← _percentile latencies (float_of_Z 95);
      p99_latency ← _percentile latencies (float_of_Z 99);
      min_latency ← fmin_list latencies;
      max_latency ← fmax_list latencies;
      mean_input_tokens ← _mean_int input_tokens;
      mean_output_tokens ← _mean_int output_tokens;
      let mean_cost := _mean costs in
      requests_per_second ←
        truediv (float_of_Z (Z.of_nat (length metrics))) duration;
      total_tokens_f ← float_of_int total_tokens;
      tokens_per_second ← truediv total_tokens_f duration;
      Ok (Report.mk
            (Z.of_nat (length metrics))
            (Z.of_nat (length successful))
            (Z.of_nat (length failed))
            error_rate
            mean_latency median_latency p95_latency p99_latency
            min_latency max_latency std_deviation
            total_input_tokens total_output_tokens total_tokens
            mean_input_tokens mean_output_tokens
            total_cost mean_cost
            duration requests_per_second tokens_per_second
            (fdiv_ieee min_time (float_of_Z 1000))
            (fdiv_ieee max_time (float_of_Z 1000))).

(** ** Queries *)

Definition get_metrics (self : collector) : list Metric.t := _metrics self.

Definition get_metrics_by_status (self : collector) (success : bool)
    : list Metric.t :=
  filter (fun m => Metric.success m = success) (_metrics self).

Definition get_metrics_by_model (self : collector) (model : string)
    : list Metric.t :=
  filter (fun m => Metric.model m = Some model) (_metrics self).

(** ** Service level objectives *)

Module SLO.
Record t : Type := mk {
  max_p95_latency : float;
  max_p99_latency : float;
  max_error_rate : float;
  min_throughput : option float;
  max_cost_per_request : option float
}.
End SLO.

Module SLOResult.
Record t : Type := mk {
  passed : bool;
  violations : list string;
  report : Report.t
}.
End SLOResult.


Section CheckSLO.

(** [str(x)] of a float, as an f-string without a format prints it. *)
Variable str_of_float : float -> string.


End CheckSLO.

End PerformanceCollector.

(** * Metrics aggregator ([metrics_aggregator.py]) *)

Module MetricsAggregator.

Definition DEFAULT_SIMILARITY_DROP_THRESHOLD : float := dec 1 10.
Definition DEFAULT_LATENCY_INCREASE_THRESHOLD : float := dec 25 100.
Definition DEFAULT_PASS_RATE_DROP_THRESHOLD : float := dec 5 100.
Definition DEFAULT_MIN_TEST_RUNS : Z := 3.

Definition CRITICAL_SIMILARITY_DROP_THRESHOLD : float := dec 2 10.
Definition CRITICAL_LATENCY_INCREASE_THRESHOLD : float := dec 5 10.
Definition CRITICAL_PASS_RATE_DROP_THRESHOLD : float := dec 1 10.

Definition MIN_RUNS_FOR_TREND : Z := 5.
Definition TREND_IMPROVEMENT_THRESHOLD : float := dec 5 100.
Definition TREND_DEGRADATION_THRESHOLD : float := fopp (dec 5 100).

Definition MAX_HISTORY_RUNS : Z := 100.
Definition DEFAULT_BASELINE_RUNS : Z := 10.
Definition DEFAULT_RECENT_RUNS : Z := 10.

(** An instant, as a count of microseconds. *)
Definition datetime : Type := Z.

Record TestRunResult : Type := {
  timestamp : datetime;
  test_suite : string;
  total_tests : Z;
  passed : Z;
  failed : Z;
  skipped : Z;
  duration : float;
  avg_similarity : option float;
  avg_bleu_score : option float;
  avg_latency : option float;
  p95_latency : option float;
  p99_latency : option float;
  avg_tokens : option float;
  total_cost : option float;
  security_violations : option Z;
  avg_risk_score : option float;
  model : option string;
  version : option string;
  notes : option string
}.

Inductive Trend : Type := improving | stable | degrading.

Inductive Severity : Type := warning | critical.

Module Baseline.
(** The dataclass [AggregatedMetrics]. *)
Record t : Type := mk {
  period : string;
  test_runs : Z;
  avg_pass_rate : float;
  avg_similarity : float;
  avg_latency : float;
  trend : Trend
}.
End Baseline.

Module Alert.
(** The dataclass [RegressionAlert]. *)
Record t : Type := mk {
  severity : Severity;
  metric : string;
  current : float;
  baseline : float;
  percent_change : float;
  message : string;
  timestamp : datetime
}.
End Alert.

Record AlertThresholds : Type := {
  similarity_drop : float;
  latency_increase : float;
  pass_rate_drop : float;
  min_test_runs : Z
}.

Definition default_thresholds : AlertThresholds :=
  {| similarity_drop := DEFAULT_SIMILARITY_DROP_THRESHOLD;
     latency_increase := DEFAULT_LATENCY_INCREASE_THRESHOLD;
     pass_rate_drop := DEFAULT_PASS_RATE_DROP_THRESHOLD;
     min_test_runs := DEFAULT_MIN_TEST_RUNS |}.

(** The aggregator: its thresholds and the history that
    [_load_history] reads back from the store, oldest run first. *)
Record aggregator : Type := {
  thresholds : AlertThresholds;
  history : list TestRunResult
}.

Definition len {A : Type} (l : list A) : Z := Z.of_nat (length l).

Definition record_test_run (result : TestRunResult) (self : aggregator)
    : aggregator :=
  let history := (history self ++ [result])%list in
  let history :=
    if len history >? MAX_HISTORY_RUNS
    then Seq.last_n history MAX_HISTORY_RUNS
    else history in
  {| thresholds := thresholds self; history := history |}.

Definition get_recent_runs (self : aggregator) (count : Z)
    : list TestRunResult :=
  let history := history self in
  if len history >=? count then Seq.last_n history count else history.

Definition _mean (values : list float) : float :=
  if len values =? 0 then fzero
  else fdiv_ieee (fsum values) (float_of_Z (len values)).

Definition _calculate_trend (runs : list TestRunResult) : Trend :=
  if len runs <? MIN_RUNS_FOR_TREND then stable
  else
    let mid := len runs / 2 in
    let first_half := Seq.slice runs 0 mid in
    let second_half := Seq.slice runs mid (len runs) in
    let first_avg_sim := _mean (omap avg_similarity first_half) in
    let second_avg_sim := _mean (omap avg_similarity second_half) in
    if is_zero first_avg_sim || is_zero second_avg_sim then stable
    else
      let change := fsub second_avg_sim first_avg_sim in
      if fltb TREND_IMPROVEMENT_THRESHOLD change then improving
      else if fltb change TREND_DEGRADATION_THRESHOLD then degrading
      else stable.

Definition calculate_baseline (self : aggregator) (runs : Z)
    : result (option Baseline.t) :=
  let recent_runs := get_recent_runs self runs in
  if len recent_runs <? min_test_runs (thresholds self) then Ok None
  else
    let total_tests := Seq.sum (map total_tests recent_runs) in
    let total_passed := Seq.sum (map passed recent_runs) in
    let similarities := omap avg_similarity recent_runs in
    let latencies := omap avg_latency recent_runs in
    avg_pass_rate ←
      (if total_tests >? 0 then int_truediv total_passed total_tests
       else Ok fzero);
    Ok (Some (Baseline.mk
                ("last_" ++ str_of_int runs ++ "_runs")
                (len recent_runs)
                avg_pass_rate
                (_mean similarities)
                (_mean latencies)
                (_calculate_trend recent_runs))).

(** ** Regression checks

    The three checks of [check_for_regressions], in the order of the
    source; each appends at most one alert to [alerts]. *)

Definition check_similarity (self : aggregator) (latest : TestRunResult)
    (baseline : Baseline.t) (alerts : list Alert.t) : result (list Alert.t) :=
  match avg_similarity latest with
  | None => Ok alerts
  | Some latest_similarity =>
      sim_change ←
        truediv (fsub latest_similarity (Baseline.avg_similarity baseline))
                (Baseline.avg_similarity baseline);
      if fltb sim_change (fopp (similarity_drop (thresholds self)))
      then
        let severity :=
          if fleb sim_change (fopp CRITICAL_SIMILARITY_DROP_THRESHOLD)
          then critical else warning in
        let message :=
          "Similarity dropped "
            ++ format_f 1 (fabs (fmul sim_change (float_of_Z 100))) ++ "% ("
            ++ format_f 2 latest_similarity ++ " vs baseline "
            ++ format_f 2 (Baseline.avg_similarity baseline) ++ ")" in
        Ok (alerts ++ [Alert.mk severity "similarity" latest_similarity
                         (Baseline.avg_similarity baseline)
                         (fmul sim_change (float_of_Z 100))
                         message (timestamp latest)])%list
      else Ok alerts
  end.

Definition check_latency (self : aggregator) (latest : TestRunResult)
    (baseline : Baseline.t) (alerts : list Alert.t) : result (list Alert.t) :=
  match avg_latency latest with
  | None => Ok alerts
  | Some latest_latency =>
      if fltb (float_of_Z 0) (Baseline.avg_latency baseline)
      then
        latency_change ←
          truediv (fsub latest_latency (Baseline.avg_latency baseline))
                  (Baseline.avg_latency baseline);
        if fltb (latency_increase (thresholds self)) latency_change
        then
          let severity :=
            if fleb CRITICAL_LATENCY_INCREASE_THRESHOLD latency_change
            then critical else warning in
          let message :=
            "Latency increased "
              ++ format_f 1 (fmul latency_change (float_of_Z 100)) ++ "% ("
              ++ format_f 0 latest_latency ++ "ms vs baseline "
              ++ format_f 0 (Baseline.avg_latency baseline) ++ "ms)" in
          Ok (alerts ++ [Alert.mk severity "latency" latest_latency
                           (Baseline.avg_latency baseline)
                           (fmul latency_change (float_of_Z 100))
                           message (timestamp latest)])%list
        else Ok alerts
      else Ok alerts
  end.

Definition check_pass_rate (self : aggregator) (latest : TestRunResult)
    (baseline : Baseline.t) (alerts : list Alert.t) : result (list Alert.t) :=
  current_pass_rate ←
    (if total_tests latest >? 0
     then int_truediv (passed latest) (total_tests latest)
     else Ok fzero);
  let pass_rate_change :=
    fsub current_pass_rate (Baseline.avg_pass_rate baseline) in
  if fltb pass_rate_change (fopp (pass_rate_drop (thresholds self)))
  then
    let severity :=
      if fltb pass_rate_change (fopp CRITICAL_PASS_RATE_DROP_THRESHOLD)
      then critical else warning in
    percent_change ←
      (if fltb (float_of_Z 0) (Baseline.avg_pass_rate baseline)
       then
         share ← truediv pass_rate_change (Baseline.avg_pass_rate baseline);
         Ok (fmul share (float_of_Z 100))
       else Ok fzero);
    let message :=
      "Pass rate dropped "
        ++ format_f 1 (fabs (fmul pass_rate_change (float_of_Z 100))) ++ "% ("
        ++ format_f 1 (fmul current_pass_rate (float_of_Z 100))
        ++ "% vs baseline "
        ++ format_f 1 (fmul (Baseline.avg_pass_rate baseline) (float_of_Z 100))
        ++ "%)" in
    Ok (alerts ++ [Alert.mk severity "pass_rate" current_pass_rate
                     (Baseline.avg_pass_rate baseline)
                     percent_change message (timestamp latest)])%list
  else Ok alerts.

(** The body of [check_for_regressions] once the latest run and the
    baseline are known. *)
Definition compare_with_baseline (self : aggregator) (latest : TestRunResult)
    (baseline : Baseline.t) : result (list Alert.t) :=
  alerts ← check_similarity self latest baseline [];
  alerts ← check_latency self latest baseline alerts;
  check_pass_rate self latest baseline alerts.

Definition check_for_regressions (self : aggregator) : result (list Alert.t) :=
  let history := history self in
  if len history <? min_test_runs (thresholds self) + 1 then Ok []
  else
    match last history with
    | None => Raise (IndexError "list index out of range")
    | Some latest =>
        baseline ← calculate_baseline self DEFAULT_BASELINE_RUNS;
        match baseline with
        | None => Ok []
        | Some baseline => compare_with_baseline self latest baseline
        end
    end.

Definition set_thresholds (thresholds : AlertThresholds) (self : aggregator)
    : aggregator :=
  {| thresholds := thresholds; history := history self |}.

Definition clear_history (self : aggregator) : aggregator :=
  {| thresholds := thresholds self; history := [] |}.

End MetricsAggregator.

(** * The behaviour as the specification words it

    Three sentences of the specification describe an algorithm step by
    step.  Each is written out here, from its words, to be compared
    with the function of the source. *)

Module Stated.

Import TextSimilarity.

(** "Lower-case, strip everything but alphanumerics and whitespace,
    split on whitespace, drop empties." *)
Fixpoint strip_chars (keep : ascii -> bool) (s : string) : string :=
  match s with
  | EmptyString => EmptyString
  | String c s' =>
      if keep c then String c (strip_chars keep s') else strip_chars keep s'
  end.

Definition tokenize (text : string) : list string :=
  let text :=
    strip_chars (fun c => Str.is_alnum c || Str.is_space c) (Str.lower text) in
  filter (fun word => Str.is_empty word = false) (Str.split text).

(** A token made of lowercase alphanumeric characters only. *)
Fixpoint all_chars (P : ascii -> bool) (s : string) : bool :=
  match s with
  | EmptyString => true
  | String c s' => P c && all_chars P s'
  end.

Definition lowercase_alnum (c : ascii) : bool :=
  Str.is_alnum c && negb (Str.is_upper c).

(** "index = ceil(p/100 · n) − 1, clamped into [0, n−1]", for a
    percentile [p] and a sample size [n], in exact arithmetic. *)
Definition rank_index (p : Q) (n : Z) : Z :=
  let index := Qceiling (p / 100 * inject_Z n) - 1 in
  Z.max 0 (Z.min index (n - 1)).

Import MetricsAggregator.

(** "Compares the single latest run against a baseline computed over
    the window of runs preceding (not including) the latest run." *)
Definition check_against_prior_window (self : aggregator)
    : result (list Alert.t) :=
  let history := history self in
  if len history <? min_test_runs (thresholds self) + 1 then Ok []
  else
    match last history with
    | None => Raise (IndexError "list index out of range")
    | Some latest =>
        let prior :=
          {| thresholds := thresholds self;
             history := removelast history |} in
        baseline ← calculate_baseline prior DEFAULT_BASELINE_RUNS;
        match baseline with
        | None => Ok []
        | Some baseline => compare_with_baseline self latest baseline
        end
    end.

End Stated.


(** * Vocabulary of the statements *)

Module Vocabulary.

Import Str TextSimilarity.

(** What one character of the text has become when the tokenizer
    splits: lower-cased, and blanked unless it is a word character
    or whitespace. *)
Definition cleaned (c : ascii) : ascii :=
  let c' := lower_char c in
  if is_word c' || is_space c' then c' else " "%char.

Definition no_blank (c : ascii) : bool := negb (is_space c).

(** A token as [split] produces them: non-empty, without whitespace. *)
Definition good_token (t : string) : Prop :=
  t <> "" /\ Stated.all_chars no_blank t = true.

Definition good_ngram (g : list string) : Prop := Forall good_token g.

Definition no_underscore (text : string) : bool :=
  Stated.all_chars (fun c => negb (code c =? 95)) text.

(** The count map of the n-gram loop stands for a multiset of
    n-grams: the key of an n-gram holds its multiplicity. *)
Definition represents (counts : gmap string Z)
    (X : gmultiset (list string)) : Prop :=
  forall g, good_ngram g ->
    default 0 (counts !! join " " g) = Z.of_nat (multiplicity g X).

(** How many times an n-gram occurs in a list of n-grams. *)
Definition occurrences (g : list string) (l : list (list string)) : nat :=
  length (filter (fun h => h = g) l).


(** What [re.sub(r'[^\w\s]', ' ', text)] makes of one character. *)
Definition blank (c : ascii) : ascii :=
  if is_word c || is_space c then c else " "%char.

Definition is_word_opt (c : option ascii) : bool :=
  from_option is_word false c.

(** The longest prefix made of word characters. *)
Fixpoint word_prefix (s : string) : string :=
  match s with
  | EmptyString => EmptyString
  | String c s' => if is_word c then String c (word_prefix s') else ""
  end.

(** The maximal runs of word characters of [s], in order; [cur] is
    the run read so far. *)
Fixpoint word_runs (cur : string) (s : string) : list string :=
  match s with
  | EmptyString => if is_empty cur then [] else [cur]
  | String c s' =>
      if is_word c then word_runs (cur ++ String c "") s'
      else if is_empty cur then word_runs "" s'
      else cur :: word_runs "" s'
  end.

(** The pattern matches somewhere after the first character. *)
Definition found_later (literal s : string) : bool :=
  match s with
  | EmptyString => false
  | String c s' => search_word_from literal (Some c) s'
  end.

Import PerformanceCollector.

Definition NO_METRICS : exn := ValueError "No metrics recorded".

Definition NO_LATENCIES : exn :=
  ValueError "No successful requests with latency data to generate report".

Definition not_found (request_id : string) : exn :=
  ValueError ("Request " ++ request_id ++ " not found").

(** The finalized metrics of the requests that succeeded. *)
Definition successful (self : collector) : list Metric.t :=
  filter (fun m => Metric.success m = true) (_metrics self).

(** The id [start_request] forms from the counter and the clock. *)
Definition request_id_of (counter stamp : Z) : string :=
  "req_" ++ str_of_int counter ++ "_" ++ str_of_int stamp.

(** Every in-flight request is stored under its own id, and that id
    was numbered by a counter value already used. *)
Definition ids_numbered (self : collector) : Prop :=
  forall id metric,
    _active_requests self !! id = Some metric ->
    Metric.request_id metric = id
    /\ exists k stamp,
         id = request_id_of k stamp /\ k <= _request_counter self.

(** The collectors a program can reach through the public calls. *)
Inductive reachable : collector -> Prop :=
| reach_init : reachable init
| reach_start clock_id clock_start self :
    reachable self ->
    reachable (fst (start_request clock_id clock_start self))
| reach_end clock self request_id usage error :
    reachable self ->
    reachable (fst (_end_request clock self request_id usage error))
| reach_record metric self :
    reachable self -> reachable (record_metric metric self)
| reach_clear self : reachable self -> reachable (clear self).

(** The collectors reached from [self] by further calls, none of
    them [clear]. *)
Inductive continues (self : collector) : collector -> Prop :=
| cont_here : continues self self
| cont_start clock_id clock_start later :
    continues self later ->
    continues self (fst (start_request clock_id clock_start later))
| cont_end clock later request_id usage error :
    continues self later ->
    continues self (fst (_end_request clock later request_id usage error))
| cont_record metric later :
    continues self later -> continues self (record_metric metric later).

(** What stays true of a request that was ended in [self'], as long
    as the collector is not cleared: the counter has not gone back,
    the id is not in flight, and the finalized metrics are still
    there, in their places. *)
Definition stays_ended (self' : collector) (id : string)
    (later : collector) : Prop :=
  _request_counter self' <= _request_counter later
  /\ _active_requests later !! id = None
  /\ exists more, _metrics later = (_metrics self' ++ more)%list.

Import MetricsAggregator.

(** An alert list grown by at most one alert, of a given metric and
    stamped with the time of the latest run. *)
Definition grown_by (name : string) (latest : TestRunResult)
    (before after : list Alert.t) : Prop :=
  after = before
  \/ exists alert,
       after = (before ++ [alert])%list
       /\ Alert.metric alert = name
       /\ Alert.timestamp alert = timestamp latest.

End Vocabulary.

(** * Concrete inputs *)

Module Examples.

Import PerformanceCollector.

Definition failed_metric : Metric.t :=
  Metric.mk "req_1_0" (float_of_Z 0) (Some (float_of_Z 5))
            (Some (float_of_Z 5)) None None None None None false
            (Some "timeout").

Definition started : collector :=
  fst (start_request (float_of_Z 1700000000) (float_of_Z 1700000000) init).

Definition ended : collector :=
  fst (_end_request (float_of_Z 1700000001) started "req_1_1700000000000"
                    None None).

(** A request started and ended, the collector cleared and a
    request started again, all within one millisecond: at the same
    reading of the clock. *)
Definition ended_at_once : collector :=
  fst (_end_request (float_of_Z 1700000000) started "req_1_1700000000000"
                    None None).

Definition restarted : collector :=
  fst (start_request (float_of_Z 1700000000) (float_of_Z 1700000000)
                     (clear ended_at_once)).

Definition with_usage : Metric.t :=
  Metric.mk "req_1_0" (float_of_Z 0) (Some (float_of_Z 40))
            (Some (float_of_Z 40)) (Some 100) (Some 50) (Some 150)
            (Some "gpt-4") (Some (dec 6 1000)) true None.

Definition without_usage : Metric.t :=
  Metric.mk "req_2_0" (float_of_Z 10) (Some (float_of_Z 30))
            (Some (float_of_Z 20)) None None None None None true None.

Definition two_requests : collector :=
  record_metric without_usage (record_metric with_usage init).

(** The sorted sample [1.0, 2.0, ..., n]. *)
Definition sample_1_to (n : Z) : list float :=
  map (fun i => float_of_Z (i + 1)) (Seq.range n).


Import MetricsAggregator.

Definition run (total passes : Z) (similarity : option float)
    : TestRunResult :=
  {| timestamp := 0; test_suite := "e2e";
     total_tests := total; passed := passes; failed := total - passes;
     skipped := 0; duration := float_of_Z 1000;
     avg_similarity := similarity; avg_bleu_score := None;
     avg_latency := None; p95_latency := None; p99_latency := None;
     avg_tokens := None; total_cost := None; security_violations := None;
     avg_risk_score := None; model := None; version := None;
     notes := None |}.

Definition with_history (history : list TestRunResult) : aggregator :=
  {| thresholds := default_thresholds; history := history |}.

(** Three runs at similarity 0.9, then three runs at 0.0. *)
Definition falling_runs : list TestRunResult :=
  [ run 10 10 (Some (dec 9 10)); run 10 10 (Some (dec 9 10));
    run 10 10 (Some (dec 9 10)); run 10 10 (Some fzero);
    run 10 10 (Some fzero); run 10 10 (Some fzero) ].

(** Three runs passing 100 of 100, then one passing 94 of 100. *)
Definition slipping_history : list TestRunResult :=
  [ run 100 100 None; run 100 100 None; run 100 100 None; run 100 94 None ].

(** The runs of the latency test of the repository: five runs at
    500 ms, then one at 750 ms. *)
Definition timed_run (latency : Z) : TestRunResult :=
  {| timestamp := 0; test_suite := "test";
     total_tests := 10; passed := 10; failed := 0;
     skipped := 0; duration := float_of_Z 1000;
     avg_similarity := Some (dec 85 100); avg_bleu_score := None;
     avg_latency := Some (float_of_Z latency); p95_latency := None;
     p99_latency := None; avg_tokens := None; total_cost := None;
     security_violations := None; avg_risk_score := None; model := None;
     version := None; notes := None |}.

Definition slowing_history : list TestRunResult :=
  [ timed_run 500; timed_run 500; timed_run 500; timed_run 500;
    timed_run 500; timed_run 750 ].

(** The aggregator after recording the runs one by one. *)
Definition recorded (runs : list TestRunResult) : aggregator :=
  foldl (fun self result => record_test_run result self)
        (with_history []) runs.

Definition zero_similarity_history : list TestRunResult :=
  [ run 10 10 (Some fzero); run 10 10 (Some fzero);
    run 10 10 (Some fzero); run 10 10 (Some fzero) ].

Definition good_run : TestRunResult :=
  {| timestamp := 7; test_suite := "e2e";
     total_tests := 10; passed := 10; failed := 0;
     skipped := 0; duration := float_of_Z 1000;
     avg_similarity := Some (dec 85 100); avg_bleu_score := None;
     avg_latency := Some (float_of_Z 500); p95_latency := None;
     p99_latency := None; avg_tokens := None; total_cost := None;
     security_violations := None; avg_risk_score := None; model := None;
     version := None; notes := None |}.

Definition bad_run : TestRunResult :=
  {| timestamp := 9; test_suite := "e2e";
     total_tests := 10; passed := 5; failed := 5;
     skipped := 0; duration := float_of_Z 1000;
     avg_similarity := Some (dec 40 100); avg_bleu_score := None;
     avg_latency := Some (float_of_Z 2000); p95_latency := None;
     p99_latency := None; avg_tokens := None; total_cost := None;
     security_violations := None; avg_risk_score := None; model := None;
     version := None; notes := None |}.

Import SummaryEvaluator.

Definition password_case : GoldenTestCase :=
  {| id := "call_001"; category := "password_reset"; difficulty := "easy";
     transcript := "";
     golden_summary := "Customer reset password successfully";
     thresholds :=
       {| min_semantic_similarity := dec 80 100;
          min_length_words := 3; max_length_words := 10;
          required_terms := ["password"; "reset"] |} |}.

(** A test case whose length bounds are the wrong way round. *)
Definition inverted_case : GoldenTestCase :=
  {| id := "call_002"; category := "billing"; difficulty := "easy";
     transcript := "";
     golden_summary := "Customer asked about a charge";
     thresholds :=
       {| min_semantic_similarity := dec 80 100;
          min_length_words := 10; max_length_words := 3;
          required_terms := [] |} |}.

End Examples.


(** * Facts about the built-ins *)

Module PyFacts.

Lemma Ok_inj {A : Type} (a b : A) : Ok a = Ok b -> a = b.
Proof. intros H. injection H as H. exact H. Qed.

Lemma bind_ok {A B : Type} (m : result A) (k : A -> result B) (b : B) :
  m ≫= k = Ok b -> exists a, m = Ok a /\ k a = Ok b.
Proof.
  destruct m as [a|e]; [intros H; exists a; split; [reflexivity|exact H]|].
  intros H. discriminate H.
Qed.

Lemma insert_sorted_length (x : float) (l : list float) :
  length (insert_sorted x l) = S (length l).
Proof.
  induction l as [|y l IH]; [reflexivity|]. simpl.
  destruct (fltb x y); simpl; [reflexivity | now rewrite IH].
Qed.

Lemma fsort_from_length (l acc : list float) :
  length (fold_left (fun sorted x => insert_sorted x sorted) l acc)
  = (length l + length acc)%nat.
Proof.
  revert acc. induction l as [|x l IH]; intros acc; [reflexivity|].
  simpl. rewrite IH, insert_sorted_length. lia.
Qed.

Lemma fsort_length (l : list float) : length (fsort l) = length l.
Proof. unfold fsort. rewrite fsort_from_length. simpl. lia. Qed.

Lemma filter_all {A : Type} (P : A -> Prop) `{!forall x, Decision (P x)}
    (l : list A) :
  Forall P l -> filter P l = l.
Proof.
  induction 1 as [|x l Hx _ IH]; [reflexivity|].
  rewrite filter_cons_True by exact Hx. now rewrite IH.
Qed.

Lemma last_drop {A : Type} (l : list A) (k : nat) :
  (k < length l)%nat -> last (drop k l) = last l.
Proof.
  revert l. induction k as [|k IH]; intros l Hk; [reflexivity|].
  destruct l as [|x l]; [simpl in Hk; lia|].
  simpl drop. rewrite IH by (simpl in Hk; lia).
  destruct l; [simpl in Hk; lia | reflexivity].
Qed.

End PyFacts.

(** * Facts about strings *)

Module StrFacts.

Import Str Stated Vocabulary.

Lemma all_chars_app (P : ascii -> bool) (s t : string) :
  all_chars P (s ++ t) = all_chars P s && all_chars P t.
Proof.
  induction s as [|c s IH]; simpl; [reflexivity|].
  rewrite IH. apply andb_assoc.
Qed.

Lemma is_empty_false (s : string) : is_empty s = false <-> s <> "".
Proof. destruct s; simpl; split; congruence. Qed.

(** Every token of [split] is a non-empty run of characters of the
    text that are not whitespace. *)
Lemma split_from_tokens (P : ascii -> bool) (s cur : string) :
  all_chars (fun c => is_space c || P c) s = true ->
  all_chars P cur = true ->
  Forall (fun tok => tok <> "" /\ all_chars P tok = true) (split_from cur s).
Proof.
  revert cur. induction s as [|c s IH]; intros cur Hs Hcur; simpl in *.
  - destruct (is_empty cur) eqn:E; constructor; [|constructor].
    split; [apply is_empty_false; exact E | exact Hcur].
  - apply andb_prop in Hs as [Hc Hs].
    destruct (is_space c) eqn:Esp.
    + destruct (is_empty cur) eqn:E.
      * apply IH; [exact Hs | reflexivity].
      * constructor.
        -- split; [apply is_empty_false; exact E | exact Hcur].
        -- apply IH; [exact Hs | reflexivity].
    + apply IH; [exact Hs|].
      rewrite all_chars_app, Hcur. simpl in *. rewrite Hc. reflexivity.
Qed.

Lemma split_tokens (P : ascii -> bool) (s : string) :
  all_chars (fun c => is_space c || P c) s = true ->
  Forall (fun tok => tok <> "" /\ all_chars P tok = true) (split s).
Proof. intros Hs. apply split_from_tokens; [exact Hs | reflexivity]. Qed.

Lemma all_chars_map (P : ascii -> bool) (f : ascii -> ascii) (s : string) :
  all_chars P (map_chars f s) = all_chars (fun c => P (f c)) s.
Proof. induction s as [|c s IH]; simpl; [reflexivity | now rewrite IH]. Qed.

Lemma all_chars_impl (P Q : ascii -> bool) (s : string) :
  (forall c, P c = true -> Q c = true) ->
  all_chars P s = true -> all_chars Q s = true.
Proof.
  intros HPQ. induction s as [|c s IH]; simpl; [reflexivity|].
  intros H. apply andb_prop in H as [Hc Hs].
  rewrite (HPQ _ Hc), (IH Hs). reflexivity.
Qed.

Lemma all_chars_true (P : ascii -> bool) (s : string) :
  (forall c, P c = true) -> all_chars P s = true.
Proof.
  intros HP. induction s as [|c s IH]; simpl; [reflexivity|].
  now rewrite HP, IH.
Qed.

Lemma map_chars_compose (f g : ascii -> ascii) (s : string) :
  map_chars f (map_chars g s) = map_chars (fun c => f (g c)) s.
Proof. induction s as [|c s IH]; simpl; [reflexivity | now rewrite IH]. Qed.

(** Away from the underscore, a cleaned character is whitespace or a
    lowercase alphanumeric. *)
Lemma cleaned_lowercase (c : ascii) :
  negb (code c =? 95) = true ->
  is_space (cleaned c) || lowercase_alnum (cleaned c) = true.
Proof.
  destruct c as [[] [] [] [] [] [] [] []]; vm_compute;
    intros H; first [reflexivity | discriminate H].
Qed.

Lemma no_blank_app_sep (u Y : string) :
  all_chars no_blank (u ++ " " ++ Y) = false.
Proof.
  rewrite all_chars_app. simpl.
  destruct (all_chars no_blank u); reflexivity.
Qed.

Lemma app_sep_inj (t u X Y : string) :
  all_chars no_blank t = true -> all_chars no_blank u = true ->
  t ++ " " ++ X = u ++ " " ++ Y -> t = u /\ X = Y.
Proof.
  revert u. induction t as [|a t IH]; intros [|b u] Ht Hu E; simpl in *.
  - injection E as E. split; [reflexivity | exact E].
  - injection E as Eb _. subst b. discriminate Hu.
  - injection E as Ea _. subst a. discriminate Ht.
  - injection E as Eab E. subst b.
    apply andb_prop in Ht as [_ Ht]. apply andb_prop in Hu as [_ Hu].
    destruct (IH u Ht Hu E) as [Etu EXY]. subst u.
    split; [reflexivity | exact EXY].
Qed.

Lemma join_cons2 (sep p q : string) (rest : list string) :
  join sep (p :: q :: rest) = p ++ sep ++ join sep (q :: rest).
Proof. reflexivity. Qed.

(** Joining with a blank loses nothing on lists of good tokens. *)
Lemma join_inj (l1 l2 : list string) :
  Forall good_token l1 -> Forall good_token l2 ->
  join " " l1 = join " " l2 -> l1 = l2.
Proof.
  revert l2. induction l1 as [|t [|t2 r1] IH]; intros l2 H1 H2 E.
  - destruct l2 as [|u [|u2 r2]]; [reflexivity| |].
    + change ("" = u) in E.
      destruct (Forall_inv H2) as [Hu _]. congruence.
    + rewrite join_cons2 in E.
      destruct (Forall_inv H2) as [Hu _].
      destruct u; [congruence | discriminate E].
  - change (join " " [t]) with t in E.
    destruct (Forall_inv H1) as [Ht Hnb].
    destruct l2 as [|u [|u2 r2]].
    + change (t = "") in E. congruence.
    + change (t = u) in E. congruence.
    + rewrite join_cons2 in E. rewrite E in Hnb.
      rewrite no_blank_app_sep in Hnb. discriminate Hnb.
  - rewrite join_cons2 in E.
    destruct (Forall_inv H1) as [Ht Hnb].
    pose proof (Forall_inv_tail H1) as H1'.
    destruct l2 as [|u [|u2 r2]].
    + change (join " " []) with "" in E.
      destruct t; [congruence | discriminate E].
    + change (join " " [u]) with u in E.
      destruct (Forall_inv H2) as [_ Hu]. rewrite <- E in Hu.
      rewrite no_blank_app_sep in Hu. discriminate Hu.
    + destruct (Forall_inv H2) as [_ Hu].
      pose proof (Forall_inv_tail H2) as H2'.
      rewrite join_cons2 in E.
      destruct (app_sep_inj _ _ _ _ Hnb Hu E) as [-> E'].
      f_equal. apply IH; assumption.
Qed.

End StrFacts.


(** * Rounding to the nearest double

    What the floating-point operations of [SpecFloat] do on the
    operands the percentile helper meets: the exact conversion of a
    sample size and the rounding of its product with a factor below
    one. *)

Module RoundingFacts.

Import Py Vocabulary.

(** ** Binary digits *)



(** ** Shifting right *)




(** ** Rounding to 53 bits *)










(** ** Ceilings *)




(** ** The ceiling of a scaled sample size *)


End RoundingFacts.


(** * Facts about the similarity metrics *)

Module TextSimilarityFacts.

Import Str Stated Vocabulary PyFacts StrFacts TextSimilarity.

(** ** The tokenizer *)

Lemma replace_lower_cleaned (text : string) :
  replace_punctuation (lower text) = map_chars cleaned text.
Proof.
  unfold replace_punctuation, lower. rewrite map_chars_compose. reflexivity.
Qed.

Lemma tokenize_split (text : string) :
  _tokenize text = split (map_chars cleaned text).
Proof.
  unfold _tokenize. rewrite replace_lower_cleaned.
  apply filter_all.
  eapply Forall_impl;
    [apply (split_tokens (fun _ => true)); apply all_chars_true; intros c;
     apply orb_true_r|].
  intros tok [Hne _]. apply is_empty_false. exact Hne.
Qed.

Lemma tokenize_good (text : string) : Forall good_token (_tokenize text).
Proof.
  rewrite tokenize_split. apply split_tokens.
  apply all_chars_true. intros c. unfold no_blank.
  destruct (is_space c); reflexivity.
Qed.

(** C6: the tokenizer is documented to keep only alphanumeric
    characters and spaces, and the claim says every token consists
    solely of lowercase alphanumeric characters.  On the text
    [Reset user_id now] it returns the token [user_id]: the pattern
    keeps word characters, and the underscore is one, so the token
    is not alphanumeric throughout.  Stripping what is neither
    alphanumeric nor whitespace gives [userid]. *)
Theorem tokenize_keeps_underscore :
  _tokenize "Reset user_id now" = ["reset"; "user_id"; "now"]
  /\ all_chars lowercase_alnum "user_id" = false
  /\ Stated.tokenize "Reset user_id now" = ["reset"; "userid"; "now"]
  /\ Forall (fun tok => all_chars lowercase_alnum tok = true)
            (Stated.tokenize "Reset user_id now").
Proof.
  split; [vm_compute; reflexivity|].
  split; [vm_compute; reflexivity|].
  assert (E : Stated.tokenize "Reset user_id now"
              = ["reset"; "userid"; "now"]) by (vm_compute; reflexivity).
  split; [exact E|]. rewrite E.
  repeat constructor; vm_compute; reflexivity.
Qed.

(** ** Jaccard similarity and overlap coefficient *)

Lemma ratio_antitone (i m u : Z) :
  0 <= i -> 0 < m -> m <= u -> (ratio i u <= ratio i m)%Q.
Proof.
  intros Hi Hm Hu. unfold ratio.
  destruct m as [|pm|pm]; try lia.
  destruct u as [|pu|pu]; try lia.
  unfold Qdiv, Qinv, Qmult, Qle; simpl. nia.
Qed.

Lemma inter_le_min (A B : gset string) :
  len_set (A ∩ B) <= Z.min (len_set A) (len_set B).
Proof.
  unfold len_set.
  assert (HA : (size (A ∩ B) ≤ size A)%nat)
    by apply subseteq_size, intersection_subseteq_l.
  assert (HB : (size (A ∩ B) ≤ size B)%nat)
    by apply subseteq_size, intersection_subseteq_r.
  lia.
Qed.

Lemma min_le_union (A B : gset string) :
  Z.min (len_set A) (len_set B) <= len_set (A ∪ B).
Proof.
  unfold len_set.
  assert (HA : (size A ≤ size (A ∪ B))%nat)
    by apply subseteq_size, union_subseteq_l.
  lia.
Qed.

(** C9: for all texts [a] and [b], and so for all those that both
    tokenize to non-empty token lists, the Jaccard similarity is at
    most the overlap coefficient.  Both are the exact quotients the
    interpreter rounds to the nearest double, and rounding keeps the
    order. *)
Theorem jaccard_le_overlap (a b : string) :
  (jaccard_similarity a b <= overlap_coefficient a b)%Q.
Proof.
  unfold jaccard_similarity, overlap_coefficient.
  set (A := word_set a). set (B := word_set b).
  pose proof (inter_le_min A B) as Him.
  pose proof (min_le_union A B) as Hmu.
  assert (Hi : 0 <= len_set (A ∩ B)) by (unfold len_set; lia).
  destruct (Z.eqb_spec (Z.min (len_set A) (len_set B)) 0) as [Hz|Hz].
  - destruct (Z.eqb_spec (len_set (A ∪ B)) 0); [apply Qle_refl|].
    assert (len_set (A ∩ B) = 0) as -> by lia.
    unfold ratio, Qdiv. rewrite Qmult_0_l. apply Qle_refl.
  - assert (Hm : 0 < Z.min (len_set A) (len_set B))
      by (unfold len_set in *; lia).
    destruct (Z.eqb_spec (len_set (A ∪ B)) 0); [lia|].
    apply ratio_antitone; lia.
Qed.

(** ** N-grams *)

Lemma slice_good (tokens : list string) (lo hi : Z) :
  Forall good_token tokens -> good_ngram (Seq.slice tokens lo hi).
Proof.
  intros H. unfold Seq.slice, good_ngram.
  apply Forall_take, Forall_drop, H.
Qed.

Lemma get_ngrams_good (tokens : list string) (n : Z) :
  Forall good_token tokens -> Forall good_ngram (_get_ngrams tokens n).
Proof.
  intros H. unfold _get_ngrams. apply List.Forall_map.
  apply Forall_forall. intros i _. apply slice_good, H.
Qed.

Lemma get_ngrams_short (tokens : list string) (n : Z) :
  Z.of_nat (length tokens) < n -> _get_ngrams tokens n = [].
Proof.
  intros H. unfold _get_ngrams, Seq.range.
  replace (Z.to_nat (Z.of_nat (length tokens) - n + 1)) with O by lia.
  reflexivity.
Qed.

Lemma represents_empty : represents ∅ ∅.
Proof. intros g _. rewrite lookup_empty, multiplicity_empty. reflexivity. Qed.

Lemma represents_add (counts : gmap string Z) X (g : list string) :
  good_ngram g -> represents counts X ->
  represents
    (<[join " " g := default 0 (counts !! join " " g) + 1]> counts)
    (X ⊎ {[+ g +]}).
Proof.
  intros Hg Hrep h Hh. rewrite multiplicity_disj_union.
  destruct (decide (h = g)) as [->|Hne].
  - rewrite lookup_insert_eq, multiplicity_singleton_eq. simpl.
    rewrite (Hrep g Hg). lia.
  - rewrite lookup_insert_ne.
    + rewrite multiplicity_singleton_ne by exact Hne.
      rewrite (Hrep h Hh). lia.
    + intros E. apply Hne. symmetry. apply join_inj; assumption.
Qed.

Lemma count_fold_represents (ngrams : list (list string))
    (counts : gmap string Z) X :
  Forall good_ngram ngrams -> represents counts X ->
  represents
    (foldl (fun (counts : gmap string Z) ngram =>
              let key := join " " ngram in
              <[key := default 0 (counts !! key) + 1]> counts)
           counts ngrams)
    (X ⊎ list_to_set_disj ngrams).
Proof.
  revert counts X. induction ngrams as [|g r IH]; intros counts X Hg Hrep.
  - simpl. rewrite (right_id ∅ (⊎)). exact Hrep.
  - simpl. rewrite (assoc (⊎)).
    apply IH; [exact (Forall_inv_tail Hg)|].
    apply represents_add; [exact (Forall_inv Hg) | exact Hrep].
Qed.

Lemma count_ngrams_represents (ngrams : list (list string)) :
  Forall good_ngram ngrams ->
  represents (_count_ngrams ngrams) (list_to_set_disj ngrams).
Proof.
  intros Hg. unfold _count_ngrams.
  rewrite <- (left_id ∅ (⊎) (list_to_set_disj ngrams)).
  apply count_fold_represents; [exact Hg | apply represents_empty].
Qed.

Lemma represents_use (counts : gmap string Z) X (g : list string) (c : Z) :
  good_ngram g -> represents counts X ->
  counts !! join " " g = Some c -> 0 < c ->
  represents (<[join " " g := c - 1]> counts) (X ∖ {[+ g +]}).
Proof.
  intros Hg Hrep Hc Hpos h Hh. rewrite multiplicity_difference.
  destruct (decide (h = g)) as [->|Hne].
  - rewrite lookup_insert_eq, multiplicity_singleton_eq. simpl.
    pose proof (Hrep g Hg) as E. rewrite Hc in E. simpl in E. lia.
  - rewrite lookup_insert_ne.
    + rewrite multiplicity_singleton_ne by exact Hne.
      rewrite (Hrep h Hh). lia.
    + intros E. apply Hne. symmetry. apply join_inj; assumption.
Qed.

Lemma inter_cons_used (g : list string) (C X : gmultiset (list string)) :
  (0 < multiplicity g X)%nat ->
  ({[+ g +]} ⊎ C) ∩ X = {[+ g +]} ⊎ (C ∩ (X ∖ {[+ g +]})).
Proof.
  intros H. apply gmultiset_eq. intros h.
  rewrite multiplicity_intersection, !multiplicity_disj_union,
    multiplicity_intersection, multiplicity_difference.
  destruct (decide (h = g)) as [->|Hne].
  - rewrite multiplicity_singleton_eq. lia.
  - rewrite multiplicity_singleton_ne by exact Hne. lia.
Qed.

Lemma inter_cons_unused (g : list string) (C X : gmultiset (list string)) :
  multiplicity g X = O ->
  ({[+ g +]} ⊎ C) ∩ X = C ∩ X.
Proof.
  intros H. apply gmultiset_eq. intros h.
  rewrite !multiplicity_intersection, multiplicity_disj_union.
  destruct (decide (h = g)) as [->|Hne].
  - rewrite multiplicity_singleton_eq. lia.
  - rewrite multiplicity_singleton_ne by exact Hne. lia.
Qed.

Lemma match_step_cases (m : Z) (counts : gmap string Z) (g : list string) :
  (exists c, counts !! join " " g = Some c /\ 0 < c
             /\ match_step (m, counts) g
                = (m + 1, <[join " " g := c - 1]> counts))
  \/ (default 0 (counts !! join " " g) <= 0
      /\ match_step (m, counts) g = (m, counts)).
Proof.
  unfold match_step.
  destruct (counts !! join " " g) as [c|] eqn:Hc; simpl.
  - destruct (Z.gtb_spec c 0) as [Hpos|Hnonpos].
    + left. exists c. split; [reflexivity|]. split; [lia|reflexivity].
    + right. split; [lia|reflexivity].
  - right. split; [lia|reflexivity].
Qed.

(** The matching loop counts the multiset intersection of the
    candidate n-grams with the reference n-grams still available. *)
Lemma match_fold (cand : list (list string)) (m : Z)
    (counts : gmap string Z) X :
  Forall good_ngram cand -> represents counts X ->
  fst (foldl match_step (m, counts) cand)
  = m + Z.of_nat (size (list_to_set_disj cand ∩ X)).
Proof.
  revert m counts X.
  induction cand as [|g r IH]; intros m counts X Hg Hrep.
  - simpl. rewrite (left_absorb ∅ (∩)), gmultiset_size_empty. simpl; lia.
  - pose proof (Forall_inv Hg) as Hgood.
    pose proof (Forall_inv_tail Hg) as Hrest.
    pose proof (Hrep g Hgood) as Hcount.
    change (foldl match_step (m, counts) (g :: r))
      with (foldl match_step (match_step (m, counts) g) r).
    rewrite list_to_set_disj_cons.
    destruct (match_step_cases m counts g)
      as [(c & Hc & Hpos & ->)|[Hnone ->]].
    + rewrite Hc in Hcount. simpl in Hcount.
      rewrite (IH (m + 1) _ (X ∖ {[+ g +]}) Hrest
                 (represents_use _ _ _ _ Hgood Hrep Hc Hpos)).
      rewrite inter_cons_used by lia.
      rewrite gmultiset_size_disj_union, gmultiset_size_singleton. lia.
    + rewrite (IH m counts X Hrest Hrep).
      rewrite inter_cons_unused by lia. reflexivity.
Qed.

Lemma multiplicity_occurrences (g : list string) (l : list (list string)) :
  multiplicity g (list_to_set_disj l : gmultiset (list string))
  = occurrences g l.
Proof.
  unfold occurrences. induction l as [|h l IH].
  - rewrite list_to_set_disj_nil, multiplicity_empty. reflexivity.
  - rewrite list_to_set_disj_cons, multiplicity_disj_union, IH.
    destruct (decide (h = g)) as [->|Hne].
    + rewrite multiplicity_singleton_eq, filter_cons_True by reflexivity.
      reflexivity.
    + rewrite multiplicity_singleton_ne by congruence.
      rewrite filter_cons_False by exact Hne. reflexivity.
Qed.

(** The number of matches the loop of [ngram_precision] counts. *)
Lemma ngram_precision_value (reference candidate : string) (n : Z) :
  _get_ngrams (_tokenize candidate) n <> [] ->
  ngram_precision reference candidate n
  = ratio (Z.of_nat
             (size (list_to_set_disj (_get_ngrams (_tokenize candidate) n)
                    ∩ list_to_set_disj (_get_ngrams (_tokenize reference) n)
                    : gmultiset (list string))))
          (Z.of_nat (length (_get_ngrams (_tokenize candidate) n))).
Proof.
  intros Hne. unfold ngram_precision.
  set (ref_ngrams := _get_ngrams (_tokenize reference) n).
  set (cand_ngrams := _get_ngrams (_tokenize candidate) n) in *.
  destruct (Z.eqb_spec (Z.of_nat (length cand_ngrams)) 0) as [Hz|_].
  { destruct cand_ngrams; [congruence | simpl in Hz; lia]. }
  pose proof (match_fold cand_ngrams 0 (_count_ngrams ref_ngrams)
                (list_to_set_disj ref_ngrams)
                (get_ngrams_good _ n (tokenize_good candidate))
                (count_ngrams_represents _
                   (get_ngrams_good _ n (tokenize_good reference))))
    as Hfold.
  destruct (foldl match_step (0, _count_ngrams ref_ngrams) cand_ngrams)
    as [matches rest].
  simpl in Hfold. rewrite Hfold. reflexivity.
Qed.

(** Orders below 1 are outside the orders [n = 1, 2, ...] of n-grams
    and no caller passes one.  At order 0 the empty candidate yields
    one empty n-gram, which any reference matches. *)
Remark ngram_precision_order_zero :
  _tokenize "" = []
  /\ _get_ngrams (_tokenize "") 0 = [[]]
  /\ ngram_precision "some text" "" 0 = 1%Q.
Proof. repeat split; vm_compute; reflexivity. Qed.

(** C7: for every reference and candidate and every order [n] of
    n-grams, [ngram_precision] returns 0 when the candidate yields no
    n-grams, which for an order [n >= 1] includes the empty candidate
    and every candidate without tokens; otherwise it returns the
    matches divided by the number of candidate n-grams, where the
    matches are the multiset intersection of the candidate n-grams
    with the reference n-grams: an n-gram is matched as many times
    as it occurs in the candidate, but at most as many times as it
    occurs in the reference, each reference occurrence being
    consumed by at most one match. *)
Theorem ngram_precision_clipped (reference candidate : string) (n : Z) :
  let ref_ngrams := _get_ngrams (_tokenize reference) n in
  let cand_ngrams := _get_ngrams (_tokenize candidate) n in
  let matched : gmultiset (list string) :=
    list_to_set_disj cand_ngrams ∩ list_to_set_disj ref_ngrams in
  (cand_ngrams = [] -> ngram_precision reference candidate n = 0%Q)
  /\ (1 <= n -> _tokenize candidate = [] ->
      ngram_precision reference candidate n = 0%Q)
  /\ (cand_ngrams <> [] ->
      ngram_precision reference candidate n
      = ratio (Z.of_nat (size matched)) (Z.of_nat (length cand_ngrams)))
  /\ (forall g, multiplicity g matched
                = Nat.min (occurrences g cand_ngrams)
                          (occurrences g ref_ngrams)).
Proof.
  intros ref_ngrams cand_ngrams matched.
  assert (Hnil : cand_ngrams = [] ->
                 ngram_precision reference candidate n = 0%Q).
  { intros E. unfold ngram_precision. fold cand_ngrams. rewrite E.
    reflexivity. }
  split; [exact Hnil|]. split; [|split].
  - intros Hn Htok. apply Hnil. unfold cand_ngrams. rewrite Htok.
    apply get_ngrams_short. simpl. lia.
  - apply ngram_precision_value.
  - intros g. unfold matched.
    rewrite multiplicity_intersection, !multiplicity_occurrences.
    reflexivity.
Qed.

Lemma ngram_precision_clipped_witness :
  (1 <= 2 /\ _tokenize "" = []
   /\ ngram_precision "some text" "" 2 = 0%Q)
  /\ (_get_ngrams (_tokenize "the the the") 1 <> []
      /\ ngram_precision "the cat" "the the the" 1
         = ratio (Z.of_nat
                    (size (list_to_set_disj
                             (_get_ngrams (_tokenize "the the the") 1)
                           ∩ list_to_set_disj
                               (_get_ngrams (_tokenize "the cat") 1)
                           : gmultiset (list string))))
                 (Z.of_nat (length (_get_ngrams (_tokenize "the the the") 1)))).
Proof.
  split.
  - split; [lia|]. split; [vm_compute; reflexivity|].
    destruct (ngram_precision_clipped "some text" "" 2) as (_ & H & _).
    apply H; [lia | vm_compute; reflexivity].
  - split; [vm_compute; discriminate|].
    destruct (ngram_precision_clipped "the cat" "the the the" 1)
      as (_ & _ & H & _).
    apply H. vm_compute; discriminate.
Defined.

End TextSimilarityFacts.


(** * Facts about the summary evaluator *)

Module EvaluatorFacts.

Import Vocabulary Examples PyFacts TextSimilarity SummaryEvaluator.

Lemma all_found_forallb (f : string -> bool) (l : list string) :
  (Z.of_nat (length (filter (fun t => f t = true) l)) =? Z.of_nat (length l))
  = forallb f l.
Proof.
  induction l as [|t l IH]; [reflexivity|].
  simpl forallb. destruct (f t) eqn:Ef.
  - rewrite filter_cons_True by exact Ef. simpl andb. rewrite <- IH.
    simpl length.
    destruct (Z.eqb_spec (Z.of_nat (length (filter (fun t => f t = true) l)))
                         (Z.of_nat (length l)));
      [apply Z.eqb_eq | apply Z.eqb_neq]; lia.
  - rewrite filter_cons_False by (rewrite Ef; discriminate). simpl andb.
    apply Z.eqb_neq. simpl length.
    pose proof (length_filter (fun t => f t = true) l). lia.
Qed.

(** The required-terms check passes exactly when every term is found. *)
Lemma terms_passed_all (text : string) (terms : list string) :
  terms_passed (contains_required_terms text terms)
  = forallb (term_found (Str.lower text)) terms.
Proof.
  unfold contains_required_terms.
  destruct terms as [|t l]; [reflexivity|].
  replace (Z.of_nat (length (t :: l)) =? 0) with false
    by (symmetry; apply Z.eqb_neq; simpl; lia).
  cbn [terms_passed]. apply all_found_forallb.
Qed.

Lemma validate_length_ok (text : string) (min_words max_words : Z) :
  0 <= min_words -> min_words <= max_words ->
  validate_length text min_words max_words
  = Ok {| length_passed :=
            (min_words <=? Z.of_nat (length (_tokenize text)))
            && (Z.of_nat (length (_tokenize text)) <=? max_words);
          word_count := Z.of_nat (length (_tokenize text)) |}.
Proof.
  intros Hmin Hle. unfold validate_length.
  replace (min_words <? 0) with false by (symmetry; apply Z.ltb_ge; lia).
  replace (max_words <? 0) with false by (symmetry; apply Z.ltb_ge; lia).
  replace (min_words >? max_words) with false
    by (symmetry; rewrite Z.gtb_ltb; apply Z.ltb_ge; lia).
  reflexivity.
Qed.

Lemma validate_length_inv (text : string) (min_words max_words : Z)
    (lc : length_result) :
  validate_length text min_words max_words = Ok lc ->
  0 <= min_words /\ min_words <= max_words
  /\ word_count lc = Z.of_nat (length (_tokenize text))
  /\ length_passed lc
     = (min_words <=? word_count lc) && (word_count lc <=? max_words).
Proof.
  unfold validate_length.
  destruct (Z.ltb_spec min_words 0); [discriminate|].
  destruct (Z.ltb_spec max_words 0); [discriminate|]. simpl orb.
  rewrite Z.gtb_ltb. destruct (Z.ltb_spec max_words min_words);
    [discriminate|].
  intros Hok. injection Hok as <-. simpl. repeat split; lia.
Qed.

(** C2: for every summary and test case with word bounds in order,
    [evaluate] returns a result; and every result it returns has
    [passed] true if and only if its failure list is empty, [passed]
    is the conjunction of the similarity-threshold check (the
    similarity is not below the threshold), the length-bounds check
    and the required-terms check, to which BLEU does not contribute,
    and the failure messages come in the order similarity, length,
    required terms. *)
Theorem evaluate_verdict (summary : string) (test_case : GoldenTestCase) :
  let th := thresholds test_case in
  (0 <= min_length_words th -> min_length_words th <= max_length_words th ->
   exists r, evaluate summary test_case = Ok r)
  /\ forall r,
       evaluate summary test_case = Ok r ->
       let sim_ok :=
         negb (fltb (similarity r) (min_semantic_similarity th)) in
       let len_ok := length_passed (length_check r) in
       let terms_ok := terms_passed (required_terms_check r) in
       (passed r = true <-> failures r = [])
       /\ passed r = sim_ok && len_ok && terms_ok
       /\ failures r
          = ((if sim_ok then []
              else [similarity_message (similarity r)
                      (min_semantic_similarity th)])
             ++ (if len_ok then []
                 else [length_message (word_count (length_check r))
                         (min_length_words th) (max_length_words th)])
             ++ (if terms_ok then []
                 else [terms_message (missing (required_terms_check r))]))%list
       /\ similarity r
          = composite_similarity summary (golden_summary test_case)
       /\ len_ok
          = (min_length_words th <=? Z.of_nat (length (_tokenize summary)))
            && (Z.of_nat (length (_tokenize summary)) <=? max_length_words th)
       /\ terms_ok
          = forallb (term_found (Str.lower summary)) (required_terms th).
Proof.
  intros th. split.
  - intros Hmin Hle. unfold evaluate. fold th.
    rewrite (validate_length_ok _ _ _ Hmin Hle). eexists. reflexivity.
  - intros r Hr. unfold evaluate in Hr. fold th in Hr.
    apply bind_ok in Hr as (lc & Hlc & Hr).
    apply validate_length_inv in Hlc as (_ & _ & Hwc & Hlp).
    apply Ok_inj in Hr. subst r.
    cbn [passed failures similarity length_check required_terms_check].
    rewrite terms_passed_all, Hlp, Hwc.
    generalize (similarity_message
                  (composite_similarity summary (golden_summary test_case))
                  (min_semantic_similarity th)).
    generalize (length_message (Z.of_nat (length (_tokenize summary)))
                  (min_length_words th) (max_length_words th)).
    generalize (terms_message
                  (missing (contains_required_terms summary
                              (required_terms th)))).
    intros m3 m2 m1.
    generalize (composite_similarity summary (golden_summary test_case)).
    intros sim.
    destruct (fltb sim (min_semantic_similarity th));
      destruct ((min_length_words th <=? Z.of_nat (length (_tokenize summary)))
                && (Z.of_nat (length (_tokenize summary))
                    <=? max_length_words th));
      destruct (forallb (term_found (Str.lower summary)) (required_terms th));
      simpl; repeat split; intros; congruence.
Qed.

Lemma evaluate_verdict_witness :
  (0 <= min_length_words (thresholds password_case)
   /\ min_length_words (thresholds password_case)
      <= max_length_words (thresholds password_case)
   /\ exists r, evaluate "Short" password_case = Ok r)
  /\ (exists r,
        evaluate "Short" password_case = Ok r
        /\ passed r = false
        /\ length (failures r) = 3%nat).
Proof.
  split.
  - split; [vm_compute; discriminate|]. split; [vm_compute; discriminate|].
    destruct (evaluate_verdict "Short" password_case) as (H & _).
    apply H; vm_compute; discriminate.
  - destruct (evaluate "Short" password_case) as [r|e] eqn:E;
      [|vm_compute in E; discriminate E].
    exists r. split; [reflexivity|].
    destruct (evaluate_verdict "Short" password_case) as (_ & H).
    destruct (H r E) as (_ & Hp & Hf & Hs & Hl & Ht).
    rewrite Hp, Hf, Hl, Ht, Hs. split; vm_compute; reflexivity.
Defined.

End EvaluatorFacts.


(** * Facts about the performance collector *)

Module CollectorFacts.

Import Vocabulary Examples PyFacts PerformanceCollector RoundingFacts.

(** C3: [generate_report] raises when there are no finalized
    metrics, and raises another error when there are finalized
    metrics but no successful metric carrying a latency; in neither
    case does it return a report. *)
Theorem generate_report_insufficient_data (self : collector) :
  (_metrics self = [] -> generate_report self = Raise NO_METRICS)
  /\ (_metrics self <> [] -> omap Metric.latency (successful self) = [] ->
      generate_report self = Raise NO_LATENCIES)
  /\ NO_METRICS <> NO_LATENCIES.
Proof.
  split; [|split].
  - intros E. unfold generate_report. rewrite E. reflexivity.
  - intros Hne Hlat. unfold generate_report.
    destruct (_metrics self) as [|m ms] eqn:E; [congruence|].
    replace (Z.of_nat (length (m :: ms)) =? 0) with false
      by (symmetry; apply Z.eqb_neq; simpl; lia).
    unfold successful in Hlat. rewrite E in Hlat. rewrite Hlat.
    reflexivity.
  - discriminate.
Qed.

Lemma generate_report_insufficient_data_witness :
  (_metrics init = [] /\ generate_report init = Raise NO_METRICS)
  /\ (_metrics (record_metric failed_metric init) <> []
      /\ omap Metric.latency (successful (record_metric failed_metric init))
         = []
      /\ generate_report (record_metric failed_metric init)
         = Raise NO_LATENCIES).
Proof.
  split.
  - split; [reflexivity|].
    destruct (generate_report_insufficient_data init) as (H & _).
    apply H. reflexivity.
  - split; [discriminate|]. split; [reflexivity|].
    destruct (generate_report_insufficient_data
                (record_metric failed_metric init)) as (_ & H & _).
    apply H; [discriminate | reflexivity].
Defined.

Lemma end_request_missing (clock : float) (self : collector)
    (request_id : string) (usage : option TokenUsage.t)
    (error : option string) :
  _active_requests self !! request_id = None ->
  _end_request clock self request_id usage error
  = (self, Raise (not_found request_id)).
Proof. intros H. unfold _end_request. rewrite H. reflexivity. Qed.

Lemma end_request_removes (clock : float) (self self' : collector)
    (request_id : string) (usage : option TokenUsage.t)
    (error : option string) :
  _end_request clock self request_id usage error = (self', Ok tt) ->
  _active_requests self' = delete request_id (_active_requests self).
Proof.
  unfold _end_request.
  destruct (_active_requests self !! request_id) as [metric|];
    [|discriminate].
  destruct usage as [u|].
  - destruct (_calculate_cost u) as [c|e]; [|discriminate].
    intros H. injection H as <-. reflexivity.
  - intros H. injection H as <-. reflexivity.
Qed.

(** C4: a handle is to be ended at most once, a second end failing.
    Ending removes the id from the in-flight map, but [clear] sets
    the counter back to zero and the id is made of the counter and
    the clock in milliseconds only: a request started, ended, the
    collector cleared and a request started again within one
    millisecond gives the second request the id of the first, and
    ending the first handle a second time succeeds, finalizing the
    request of the second handle. *)
Theorem stale_handle_ends_again :
  start_request (float_of_Z 1700000000) (float_of_Z 1700000000) init
  = (started, Ok "req_1_1700000000000")
  /\ _end_request (float_of_Z 1700000000) started "req_1_1700000000000"
                  None None
     = (ended_at_once, Ok tt)
  /\ start_request (float_of_Z 1700000000) (float_of_Z 1700000000)
                   (clear ended_at_once)
     = (restarted, Ok "req_1_1700000000000")
  /\ exists final,
       _end_request (float_of_Z 1700000000) restarted "req_1_1700000000000"
                    None None
       = (final, Ok tt)
       /\ length (_metrics final) = 1%nat
       /\ _active_requests final = ∅.
Proof.
  split; [vm_compute; reflexivity|].
  split; [vm_compute; reflexivity|].
  split; [vm_compute; reflexivity|].
  eexists. split; [vm_compute; reflexivity|].
  split; reflexivity.
Qed.

(** Percentiles other than those of the report never reach the
    helper.  The rule computed in doubles can then differ from the
    exact one: [7 / 100 * 100] is [7.000000000000001], whose ceiling
    is 8, so that the 7th percentile of [1..100] would be read at
    index 7 and not at index 6. *)
Remark percentile_rank_rounding :
  (_percentile (sample_1_to 10) (float_of_Z 95) = Ok (float_of_Z 10)
   /\ Stated.rank_index 95 10 = 9)
  /\ (_percentile (sample_1_to 100) (float_of_Z 7) = Ok (float_of_Z 8)
      /\ Stated.rank_index 7 100 = 6
      /\ sample_1_to 100 !! Z.to_nat (Stated.rank_index 7 100)
         = Some (float_of_Z 7)).
Proof. repeat split; vm_compute; reflexivity. Qed.





(** What [generate_report] leaves behind when it returns. *)
Lemma generate_report_ok (self : collector) (r : Report.t) :
  generate_report self = Ok r ->
  let input_tokens :=
    map (fun m => or_int (Metric.input_tokens m) 0) (successful self) in
  let output_tokens :=
    map (fun m => or_int (Metric.output_tokens m) 0) (successful self) in
  let costs :=
    map (fun m => or_float (Metric.cost m) fzero) (successful self) in
  _metrics self <> []
  /\ omap Metric.latency (successful self) <> []
  /\ _mean_int input_tokens = Ok (Report.mean_input_tokens r)
  /\ _mean_int output_tokens = Ok (Report.mean_output_tokens r)
  /\ Report.mean_cost r = _mean costs
  /\ Report.total_requests r = Z.of_nat (length (_metrics self))
  /\ Report.successful_requests r = Z.of_nat (length (successful self))
  /\ Report.failed_requests r
     = Z.of_nat (length (filter (fun m => Metric.success m = false)
                                (_metrics self)))
  /\ Report.total_input_tokens r = Seq.sum input_tokens
  /\ Report.total_output_tokens r = Seq.sum output_tokens
  /\ Report.total_tokens r = Seq.sum input_tokens + Seq.sum output_tokens
  /\ Report.total_cost r = fsum costs.
Proof.
  intros Hrep input_tokens output_tokens costs.
  unfold generate_report in Hrep. fold (successful self) in Hrep.
  destruct (Z.eqb_spec (Z.of_nat (length (_metrics self))) 0) as [|Hm];
    [discriminate Hrep|].
  destruct (Z.eqb_spec
              (Z.of_nat (length (fsort (omap Metric.latency (successful self)))))
              0) as [|Hlat]; [discriminate Hrep|].
  rewrite fsort_length in Hlat.
  fold input_tokens output_tokens costs in Hrep.
  repeat (apply bind_ok in Hrep as (? & ? & Hrep)).
  apply Ok_inj in Hrep. subst r. cbn.
  split; [intros E; rewrite E in Hm; simpl in Hm; lia|].
  split; [intros E; rewrite E in Hlat; simpl in Hlat; lia|].
  repeat split; assumption.
Qed.

(** C10: in a report, [mean_input_tokens], [mean_output_tokens] and
    [mean_cost] are averages over all successful requests: the
    divisor is the number of successful requests, and a successful
    request without recorded usage adds 0 tokens and 0.0 cost to the
    sum. *)
Theorem report_means_over_successful (self : collector) (r : Report.t) :
  generate_report self = Ok r ->
  let input_tokens :=
    map (fun m => or_int (Metric.input_tokens m) 0) (successful self) in
  let output_tokens :=
    map (fun m => or_int (Metric.output_tokens m) 0) (successful self) in
  let costs :=
    map (fun m => or_float (Metric.cost m) fzero) (successful self) in
  let n := Z.of_nat (length (successful self)) in
  0 < n
  /\ int_truediv (Seq.sum input_tokens) n = Ok (Report.mean_input_tokens r)
  /\ int_truediv (Seq.sum output_tokens) n = Ok (Report.mean_output_tokens r)
  /\ Report.mean_cost r = fdiv_ieee (fsum costs) (float_of_Z n)
  /\ Report.successful_requests r = n.
Proof.
  intros Hrep input_tokens output_tokens costs n.
  destruct (generate_report_ok self r Hrep)
    as (_ & Hlat & Hin & Hout & Hcost & _ & Hsucc & _).
  fold input_tokens output_tokens costs in Hin, Hout, Hcost.
  assert (Hn : 0 < n).
  { unfold n. destruct (successful self) as [|m ms];
      [exfalso; apply Hlat; reflexivity | simpl; lia]. }
  assert (Hlin : Z.of_nat (length input_tokens) = n)
    by (unfold input_tokens, n; now rewrite length_map).
  assert (Hlout : Z.of_nat (length output_tokens) = n)
    by (unfold output_tokens, n; now rewrite length_map).
  assert (Hlcost : Z.of_nat (length costs) = n)
    by (unfold costs, n; now rewrite length_map).
  assert (Hnz : (n =? 0) = false) by (apply Z.eqb_neq; lia).
  unfold _mean_int, _mean in *.
  rewrite Hlin, Hlout, Hlcost, Hnz in *.
  repeat split; assumption.
Qed.

Lemma report_means_over_successful_witness :
  exists r,
    generate_report two_requests = Ok r
    /\ length (successful two_requests) = 2%nat
    /\ Report.mean_input_tokens r = float_of_Z 50
    /\ Report.mean_output_tokens r = float_of_Z 25
    /\ Report.mean_cost r = dec 3 1000.
Proof.
  destruct (generate_report two_requests) as [r|e] eqn:E;
    [|vm_compute in E; discriminate E].
  exists r. split; [reflexivity|]. split; [reflexivity|].
  destruct (report_means_over_successful two_requests r E)
    as (_ & Hin & Hout & Hcost & _).
  split; [|split].
  - enough (Ok (Report.mean_input_tokens r) = Ok (float_of_Z 50))
      by congruence.
    rewrite <- Hin. vm_compute; reflexivity.
  - enough (Ok (Report.mean_output_tokens r) = Ok (float_of_Z 25))
      by congruence.
    rewrite <- Hout. vm_compute; reflexivity.
  - rewrite Hcost. vm_compute; reflexivity.
Defined.

End CollectorFacts.


(** * Facts about the metrics aggregator *)

Module AggregatorFacts.

Import Vocabulary Examples PyFacts MetricsAggregator.

(** C8: on six runs, three at similarity 0.9 followed by three at
    0.0, both halves carry similarity data and the mean of the second
    half falls short of the first by 0.9, more than 0.05; the trend
    is nevertheless classified "stable" and not "degrading", because
    a mean equal to zero is read as missing data. *)
Theorem trend_zero_mean_reads_as_no_data :
  let first_half := Seq.slice falling_runs 0 3 in
  let second_half := Seq.slice falling_runs 3 6 in
  let first_avg := _mean (omap avg_similarity first_half) in
  let second_avg := _mean (omap avg_similarity second_half) in
  length (omap avg_similarity first_half) = 3%nat
  /\ length (omap avg_similarity second_half) = 3%nat
  /\ fltb (fsub second_avg first_avg) TREND_DEGRADATION_THRESHOLD = true
  /\ _calculate_trend falling_runs = stable.
Proof. repeat split; vm_compute; reflexivity. Qed.

(** C1: the latest run is to be compared with a baseline over the
    runs that precede it, but the baseline of the code is computed
    over the most recent runs, the latest among them.  On the runs
    of the latency test of the repository, five at 500 ms and then
    one at 750 ms, "50% increase" in the words of the test, the
    baseline comes out as 542 ms, the increase as 38.5 % and the
    alert as a warning, where the five preceding runs give 500 ms,
    50 % and a critical alert.  On three runs passing 100 of 100
    tests followed by one passing 94 of 100, the pass rate drops by
    6 points against the three preceding runs and a warning is due,
    but with the latest run averaged in the drop is 4.5 points and
    no alert is raised. *)
Theorem baseline_window_includes_latest :
  (history (recorded slowing_history) = slowing_history
   /\ (exists alert,
         check_for_regressions (recorded slowing_history) = Ok [alert]
         /\ Alert.metric alert = "latency"
         /\ Alert.severity alert = warning
         /\ Alert.message alert
            = "Latency increased 38.5% (750ms vs baseline 542ms)")
   /\ (exists alert,
         Stated.check_against_prior_window (recorded slowing_history)
         = Ok [alert]
         /\ Alert.metric alert = "latency"
         /\ Alert.severity alert = critical
         /\ Alert.message alert
            = "Latency increased 50.0% (750ms vs baseline 500ms)"))
  /\ (history (recorded slipping_history) = slipping_history
      /\ check_for_regressions (recorded slipping_history) = Ok []
      /\ exists alert,
           Stated.check_against_prior_window (recorded slipping_history)
           = Ok [alert]
           /\ Alert.metric alert = "pass_rate"
           /\ Alert.severity alert = warning).
Proof.
  split; (split; [vm_compute; reflexivity|]).
  - split.
    + destruct (check_for_regressions (recorded slowing_history))
        as [[|alert [|]]|] eqn:E; vm_compute in E; try discriminate E.
      exists alert. split; [reflexivity|].
      apply Ok_inj in E. injection E as <-. repeat split.
    + destruct (Stated.check_against_prior_window
                  (recorded slowing_history))
        as [[|alert [|]]|] eqn:E; vm_compute in E; try discriminate E.
      exists alert. split; [reflexivity|].
      apply Ok_inj in E. injection E as <-. repeat split.
  - split; [vm_compute; reflexivity|].
    destruct (Stated.check_against_prior_window
                (recorded slipping_history))
      as [[|alert [|]]|] eqn:E; vm_compute in E; try discriminate E.
    exists alert. split; [reflexivity|].
    apply Ok_inj in E. injection E as <-. split; reflexivity.
Qed.

Lemma get_recent_runs_drop (self : aggregator) (count : Z) :
  0 < count ->
  get_recent_runs self count
  = drop (length (history self) - Z.to_nat count) (history self).
Proof.
  intros Hc. unfold get_recent_runs, len, Seq.last_n, Seq.clamp_index.
  destruct (Z.geb_spec (Z.of_nat (length (history self))) count) as [Hge|Hlt].
  - replace (- count <? 0) with true by (symmetry; apply Z.ltb_lt; lia).
    f_equal. lia.
  - replace (length (history self) - Z.to_nat count)%nat with O by lia.
    reflexivity.
Qed.

End AggregatorFacts.


(** * Further properties of the code *)

Module PyMoreFacts.

Import PyFacts.

Lemma bind_raise {A B : Type} (e : exn) (k : A -> result B) :
  Raise e ≫= k = Raise e.
Proof. reflexivity. Qed.

Lemma bind_ok_l {A B : Type} (a : A) (k : A -> result B) :
  Ok a ≫= k = k a.
Proof. reflexivity. Qed.

Lemma filter_split_length {A : Type} (f : A -> bool) (l : list A) :
  (length (filter (fun x => f x = true) l)
   + length (filter (fun x => f x = false) l))%nat = length l.
Proof.
  induction l as [|x l IH]; [reflexivity|].
  destruct (f x) eqn:E.
  - rewrite filter_cons_True by exact E.
    rewrite filter_cons_False by (rewrite E; discriminate).
    simpl. lia.
  - rewrite filter_cons_False by (rewrite E; discriminate).
    rewrite filter_cons_True by exact E.
    simpl. lia.
Qed.

End PyMoreFacts.

Module SetMetricFacts.

Import Str Stated Vocabulary PyFacts StrFacts TextSimilarity
       TextSimilarityFacts.

Lemma ratio_range (a b : Z) :
  0 <= a -> a <= b -> (0 <= ratio a b /\ ratio a b <= 1)%Q.
Proof.
  intros Ha Hb. unfold ratio.
  destruct b as [|pb|pb]; try lia.
  - assert (a = 0) as -> by lia.
    unfold Qdiv, Qinv, Qmult, Qle; simpl. lia.
  - unfold Qdiv, Qinv, Qmult, Qle; simpl. lia.
Qed.

Lemma ratio_same (a : Z) : 0 < a -> (ratio a a == 1)%Q.
Proof.
  intros Ha. unfold ratio. destruct a as [|pa|pa]; try lia.
  unfold Qdiv, Qinv, Qmult, Qeq; simpl. lia.
Qed.

Lemma ratio_zero (b : Z) : (ratio 0 b == 0)%Q.
Proof. unfold ratio, Qdiv. apply Qmult_0_l. Qed.

Lemma set_metrics_comm (a b : string) :
  jaccard_similarity a b = jaccard_similarity b a
  /\ overlap_coefficient a b = overlap_coefficient b a.
Proof.
  unfold jaccard_similarity, overlap_coefficient.
  assert (Ei : word_set a ∩ word_set b = word_set b ∩ word_set a)
    by apply (comm_L _).
  assert (Eu : word_set a ∪ word_set b = word_set b ∪ word_set a)
    by apply (comm_L _).
  rewrite Ei, Eu.
  rewrite (Z.min_comm (len_set (word_set a)) (len_set (word_set b))).
  split; reflexivity.
Qed.

(** The product of two doubles does not depend on their order. *)
Lemma fmul_comm (x y : float) : fmul x y = fmul y x.
Proof.
  unfold fmul, SFmul.
  destruct x as [sx|sx| |sx mx ex], y as [sy|sy| |sy my ey];
    try reflexivity;
    rewrite ?(xorb_comm sx sy), ?(Pos.mul_comm mx my), ?(Z.add_comm ex ey);
    reflexivity.
Qed.

Lemma dot_comm (f g : string -> Z) (vocab : list string) :
  zip_with Z.mul (map f vocab) (map g vocab)
  = zip_with Z.mul (map g vocab) (map f vocab).
Proof.
  induction vocab as [|w vocab IH]; [reflexivity|].
  simpl. rewrite IH, Z.mul_comm. reflexivity.
Qed.

Lemma vocab_comm (words1 words2 : list string) :
  (list_to_set (words1 ++ words2)%list : gset string)
  = list_to_set (words2 ++ words1)%list.
Proof. rewrite !list_to_set_app_L. apply (comm_L _). Qed.

Lemma cosine_comm (text1 text2 : string) :
  cosine_similarity text1 text2 = cosine_similarity text2 text1.
Proof.
  unfold cosine_similarity.
  rewrite (vocab_comm (_tokenize text1) (_tokenize text2)).
  rewrite dot_comm, orb_comm, fmul_comm. reflexivity.
Qed.

(** X1: the cosine similarity, the Jaccard similarity, the overlap
    coefficient and the composite similarity built from them give
    the same value when their two texts are exchanged; for the
    cosine and the composite this is equality of the doubles, bit
    for bit. *)
Theorem metrics_symmetric (a b : string) :
  cosine_similarity a b = cosine_similarity b a
  /\ jaccard_similarity a b = jaccard_similarity b a
  /\ overlap_coefficient a b = overlap_coefficient b a
  /\ composite_similarity a b = composite_similarity b a.
Proof.
  destruct (set_metrics_comm a b) as [Hj Ho].
  split; [apply cosine_comm|]. split; [exact Hj|]. split; [exact Ho|].
  unfold composite_similarity. rewrite Hj, Ho, cosine_comm. reflexivity.
Qed.

(** X2: the Jaccard similarity and the overlap coefficient of any two
    texts lie between 0 and 1. *)
Theorem set_metrics_range (a b : string) :
  (0 <= jaccard_similarity a b /\ jaccard_similarity a b <= 1)%Q
  /\ (0 <= overlap_coefficient a b /\ overlap_coefficient a b <= 1)%Q.
Proof.
  unfold jaccard_similarity, overlap_coefficient.
  set (A := word_set a). set (B := word_set b).
  pose proof (inter_le_min A B) as Him.
  pose proof (min_le_union A B) as Hmu.
  assert (Hi : 0 <= len_set (A ∩ B)) by (unfold len_set; lia).
  split.
  - destruct (len_set (A ∪ B) =? 0); [split; discriminate|].
    apply ratio_range; lia.
  - destruct (Z.min (len_set A) (len_set B) =? 0); [split; discriminate|].
    apply ratio_range; lia.
Qed.

Lemma word_set_size (text : string) :
  _tokenize text <> [] -> 0 < len_set (word_set text).
Proof.
  intros Hne. unfold len_set, word_set.
  destruct (_tokenize text) as [|t l]; [congruence|].
  assert (size (list_to_set (t :: l) : gset string) <> 0%nat); [|lia].
  intros Hz. apply size_empty_inv in Hz.
  assert (t ∈ (list_to_set (t :: l) : gset string)) as Hin by set_solver.
  rewrite Hz in Hin. set_solver.
Qed.

Lemma word_set_empty (text : string) :
  _tokenize text = [] -> word_set text = ∅.
Proof. intros E. unfold word_set. rewrite E. reflexivity. Qed.

(** X3: a text with at least one token has Jaccard similarity 1 and
    overlap coefficient 1 with itself. *)
Theorem set_metrics_identical (text : string) :
  _tokenize text <> [] ->
  (jaccard_similarity text text == 1)%Q
  /\ (overlap_coefficient text text == 1)%Q.
Proof.
  intros Hne. pose proof (word_set_size text Hne) as Hpos.
  unfold jaccard_similarity, overlap_coefficient.
  assert (Ei : word_set text ∩ word_set text = word_set text)
    by apply (idemp_L _).
  assert (Eu : word_set text ∪ word_set text = word_set text)
    by apply (idemp_L _).
  rewrite Ei, Eu.
  rewrite Z.min_id.
  destruct (Z.eqb_spec (len_set (word_set text)) 0); [lia|].
  split; apply ratio_same; exact Hpos.
Qed.

Lemma set_metrics_identical_witness :
  _tokenize "Customer reset password" <> []
  /\ (jaccard_similarity "Customer reset password"
                         "Customer reset password" == 1)%Q.
Proof.
  split; [vm_compute; discriminate|].
  apply (set_metrics_identical "Customer reset password").
  vm_compute; discriminate.
Defined.

End SetMetricFacts.

Module NgramFacts.

Import Str Stated Vocabulary PyFacts StrFacts TextSimilarity
       TextSimilarityFacts SetMetricFacts.

Lemma size_list_to_set_disj (l : list (list string)) :
  size (list_to_set_disj l : gmultiset (list string)) = length l.
Proof.
  induction l as [|g l IH].
  - rewrite list_to_set_disj_nil. apply gmultiset_size_empty.
  - rewrite list_to_set_disj_cons, gmultiset_size_disj_union,
      gmultiset_size_singleton, IH. reflexivity.
Qed.

(** X7: the n-gram precision lies between 0 and 1 for every
    reference, candidate and order [n], the orders below 1
    included. *)
Theorem ngram_precision_range (reference candidate : string) (n : Z) :
  (0 <= ngram_precision reference candidate n
   /\ ngram_precision reference candidate n <= 1)%Q.
Proof.
  destruct (_get_ngrams (_tokenize candidate) n) as [|g l] eqn:E.
  - unfold ngram_precision. rewrite E. simpl. split; discriminate.
  - rewrite ngram_precision_value by (rewrite E; discriminate).
    apply ratio_range; [lia|].
    apply inj_le. rewrite <- (size_list_to_set_disj (_get_ngrams _ n)).
    apply gmultiset_subseteq_size. multiset_solver.
Qed.

Lemma slice_window (tokens : list string) (i : nat) (n : Z) :
  0 <= n -> Z.of_nat i + n <= Z.of_nat (length tokens) ->
  Seq.slice tokens (Z.of_nat i) (Z.of_nat i + n)
  = take (Z.to_nat n) (drop i tokens).
Proof.
  intros Hn Hi. unfold Seq.slice, Seq.clamp_index.
  replace (Z.of_nat i <? 0) with false by (symmetry; apply Z.ltb_ge; lia).
  replace (Z.of_nat i + n <? 0) with false
    by (symmetry; apply Z.ltb_ge; lia).
  rewrite !Z.min_l by lia.
  replace (Z.to_nat (Z.of_nat i + n - Z.of_nat i)) with (Z.to_nat n) by lia.
  rewrite Nat2Z.id. reflexivity.
Qed.

(** X6: for an order [n >= 1] the n-grams of a token list are its
    windows of [n] consecutive tokens, one for each start position
    in order; each has exactly [n] tokens, and there are
    [max 0 (len - n + 1)] of them, so none when the list is shorter
    than [n]. *)
Theorem get_ngrams_windows (tokens : list string) (n : Z) :
  1 <= n ->
  _get_ngrams tokens n
  = map (fun i => take (Z.to_nat n) (drop i tokens))
        (seq 0 (length tokens + 1 - Z.to_nat n))
  /\ Forall (fun g => Z.of_nat (length g) = n) (_get_ngrams tokens n)
  /\ Z.of_nat (length (_get_ngrams tokens n))
     = Z.max 0 (Z.of_nat (length tokens) - n + 1).
Proof.
  intros Hn.
  assert (E : _get_ngrams tokens n
              = map (fun i => take (Z.to_nat n) (drop i tokens))
                    (seq 0 (length tokens + 1 - Z.to_nat n))).
  { unfold _get_ngrams, Seq.range. rewrite List.map_map.
    replace (Z.to_nat (Z.of_nat (length tokens) - n + 1))
      with (length tokens + 1 - Z.to_nat n)%nat by lia.
    apply List.map_ext_in. intros i Hi. apply in_seq in Hi.
    apply slice_window; lia. }
  split; [exact E|]. split.
  - rewrite E. apply List.Forall_map, Forall_forall. intros i Hi.
    apply list_elem_of_In, in_seq in Hi.
    rewrite length_take, length_drop. lia.
  - rewrite E, length_map, length_seq. lia.
Qed.

Lemma get_ngrams_windows_witness :
  1 <= 2
  /\ _get_ngrams ["customer"; "had"; "an"; "issue"] 2
     = [["customer"; "had"]; ["had"; "an"]; ["an"; "issue"]].
Proof.
  split; [lia|].
  destruct (get_ngrams_windows ["customer"; "had"; "an"; "issue"] 2)
    as (E & _); [lia|].
  rewrite E. reflexivity.
Defined.

End NgramFacts.

Module TermFacts.

Import Str Stated Vocabulary PyFacts PyMoreFacts StrFacts TextSimilarity
       TextSimilarityFacts SetMetricFacts EvaluatorFacts.

Lemma missing_nil_forallb (f : string -> bool) (l : list string) :
  filter (fun t => f t = false) l = [] <-> forallb f l = true.
Proof.
  induction l as [|t l IH]; [split; reflexivity|].
  simpl forallb. destruct (f t) eqn:E.
  - rewrite filter_cons_False by (rewrite E; discriminate). exact IH.
  - rewrite filter_cons_True by exact E. split; discriminate.
Qed.

(** X8: the result of [contains_required_terms] hangs together: the
    missing terms are the required terms not found, in their order
    and with their repetitions; the check passes exactly when none is
    missing; the coverage is 1 for an empty list of terms and
    otherwise the share of the terms that are not missing; and it
    lies between 0 and 1. *)
Theorem required_terms_report (text : string) (terms : list string) :
  let r := contains_required_terms text terms in
  missing r
  = filter (fun term => term_found (lower text) term = false) terms
  /\ (terms_passed r = true <-> missing r = [])
  /\ (terms = [] -> coverage r = 1%Q)
  /\ (terms <> [] ->
      coverage r
      = ratio (Z.of_nat (length terms) - Z.of_nat (length (missing r)))
              (Z.of_nat (length terms)))
  /\ (0 <= coverage r /\ coverage r <= 1)%Q.
Proof.
  intros r.
  assert (Hmiss : missing r
            = filter (fun term => term_found (lower text) term = false)
                     terms).
  { unfold r, contains_required_terms. destruct terms; reflexivity. }
  split; [exact Hmiss|]. split; [|split; [|split]].
  - unfold r. rewrite terms_passed_all. fold r. rewrite Hmiss.
    symmetry. apply missing_nil_forallb.
  - intros ->. reflexivity.
  - intros Hne. rewrite Hmiss. unfold r, contains_required_terms.
    destruct terms as [|t l]; [congruence|].
    replace (Z.of_nat (length (t :: l)) =? 0) with false
      by (symmetry; apply Z.eqb_neq; simpl; lia).
    cbn [coverage]. f_equal.
    pose proof (filter_split_length (term_found (lower text)) (t :: l)).
    lia.
  - unfold r, contains_required_terms.
    destruct (Z.of_nat (length terms) =? 0); [simpl; split; discriminate|].
    cbn [coverage]. apply ratio_range; [lia|].
    pose proof (length_filter
                  (fun term => term_found (lower text) term = true) terms).
    lia.
Qed.

Lemma required_terms_report_witness :
  ["password"; "reset"; "email"] <> []
  /\ coverage (contains_required_terms "Password was reset."
                 ["password"; "reset"; "email"])
     = ratio (3 - 1) 3
  /\ missing (contains_required_terms "Password was reset."
                ["password"; "reset"; "email"]) = ["email"].
Proof.
  split; [discriminate|].
  destruct (required_terms_report "Password was reset."
              ["password"; "reset"; "email"]) as (Hm & _ & _ & Hc & _).
  split; [rewrite Hc by discriminate; vm_compute; reflexivity|].
  rewrite Hm. vm_compute; reflexivity.
Defined.

(** X10: [validate_length] has three outcomes.  A negative bound
    raises ValueError with the non-negativity message, whatever the
    other bound; non-negative bounds the wrong way round raise
    ValueError; and proper bounds return the number of tokens
    together with whether it lies within the bounds, both ends
    included. *)
Theorem validate_length_outcomes (text : string) (min_words max_words : Z) :
  (min_words < 0 \/ max_words < 0 ->
   validate_length text min_words max_words
   = Raise (ValueError "Word count limits must be non-negative"))
  /\ (0 <= max_words -> max_words < min_words ->
      exists msg, validate_length text min_words max_words
                  = Raise (ValueError msg))
  /\ (0 <= min_words -> min_words <= max_words ->
      validate_length text min_words max_words
      = Ok {| length_passed :=
                (min_words <=? Z.of_nat (length (_tokenize text)))
                && (Z.of_nat (length (_tokenize text)) <=? max_words);
              word_count := Z.of_nat (length (_tokenize text)) |}).
Proof.
  split; [|split].
  - intros H. unfold validate_length.
    replace ((min_words <? 0) || (max_words <? 0)) with true;
      [reflexivity|].
    symmetry. apply orb_true_iff.
    destruct H; [left | right]; apply Z.ltb_lt; assumption.
  - intros Hmax Hlt. unfold validate_length.
    replace (min_words <? 0) with false by (symmetry; apply Z.ltb_ge; lia).
    replace (max_words <? 0) with false by (symmetry; apply Z.ltb_ge; lia).
    replace (min_words >? max_words) with true
      by (symmetry; rewrite Z.gtb_ltb; apply Z.ltb_lt; lia).
    eexists. reflexivity.
  - apply validate_length_ok.
Qed.

Lemma validate_length_outcomes_witness :
  ((-1 < 0 \/ 10 < 0)
   /\ validate_length "Issue" (-1) 10
      = Raise (ValueError "Word count limits must be non-negative"))
  /\ (0 <= 2 /\ 2 < 5
      /\ exists msg, validate_length "Issue" 5 2 = Raise (ValueError msg))
  /\ (0 <= 5 /\ 5 <= 10
      /\ validate_length "Issue" 5 10
         = Ok {| length_passed := false; word_count := 1 |}).
Proof.
  destruct (validate_length_outcomes "Issue" (-1) 10) as (H1 & _).
  destruct (validate_length_outcomes "Issue" 5 2) as (_ & H2 & _).
  destruct (validate_length_outcomes "Issue" 5 10) as (_ & _ & H3).
  split; [split; [left; lia | apply H1; left; lia]|].
  split; [split; [lia | split; [lia | apply H2; lia]]|].
  split; [lia|]. split; [lia|].
  rewrite H3 by lia. vm_compute; reflexivity.
Defined.

Lemma lower_char_idempotent (c : ascii) :
  lower_char (lower_char c) = lower_char c.
Proof. destruct c as [[] [] [] [] [] [] [] []]; vm_compute; reflexivity. Qed.

Lemma lower_idempotent (s : string) : lower (lower s) = lower s.
Proof.
  unfold lower. rewrite map_chars_compose.
  induction s as [|c s IH]; simpl; [reflexivity|].
  rewrite lower_char_idempotent, IH. reflexivity.
Qed.

(** X5: lower-casing a text beforehand changes nothing: its tokens,
    its Jaccard similarity and overlap coefficient with any other
    text and its required-terms result stay the same, and a required
    term is found or not regardless of its own case. *)
Theorem metrics_ignore_case (text other : string) (terms : list string) :
  _tokenize (lower text) = _tokenize text
  /\ jaccard_similarity (lower text) other = jaccard_similarity text other
  /\ overlap_coefficient (lower text) other
     = overlap_coefficient text other
  /\ contains_required_terms (lower text) terms
     = contains_required_terms text terms
  /\ (forall term,
        term_found (lower text) (lower term)
        = term_found (lower text) term).
Proof.
  assert (Htok : _tokenize (lower text) = _tokenize text)
    by (unfold _tokenize; rewrite lower_idempotent; reflexivity).
  split; [exact Htok|].
  split; [unfold jaccard_similarity, word_set; rewrite Htok; reflexivity|].
  split; [unfold overlap_coefficient, word_set; rewrite Htok; reflexivity|].
  split;
    [unfold contains_required_terms; rewrite lower_idempotent; reflexivity|].
  intros term. unfold term_found. rewrite lower_idempotent. reflexivity.
Qed.

End TermFacts.

Module WordFacts.
Import Str Stated Vocabulary PyFacts StrFacts TextSimilarity
       TextSimilarityFacts.

(** Blanking keeps word characters, none of which is whitespace, and
    turns every other character into whitespace. *)
Lemma blank_word (c : ascii) :
  is_word c = true -> blank c = c /\ is_space c = false.
Proof.
  destruct c as [[] [] [] [] [] [] [] []]; vm_compute; intros H;
    first [discriminate H | split; reflexivity].
Qed.

Lemma blank_other (c : ascii) :
  is_word c = false -> is_space (blank c) = true.
Proof.
  destruct c as [[] [] [] [] [] [] [] []]; vm_compute; intros H;
    first [discriminate H | reflexivity].
Qed.

Lemma split_blank_runs (s cur : string) :
  split_from cur (map_chars blank s) = word_runs cur s.
Proof.
  revert cur. induction s as [|c s IH]; intros cur; [reflexivity|].
  simpl. destruct (is_word c) eqn:Ew.
  - destruct (blank_word c Ew) as [-> ->]. apply IH.
  - rewrite (blank_other c Ew), !IH. reflexivity.
Qed.

Lemma cleaned_blank_lower (text : string) :
  map_chars cleaned text = map_chars blank (lower text).
Proof.
  unfold lower. rewrite map_chars_compose. reflexivity.
Qed.

Lemma tokenize_word_runs (text : string) :
  _tokenize text = word_runs "" (lower text).
Proof.
  rewrite tokenize_split, cleaned_blank_lower. apply split_blank_runs.
Qed.

Lemma app_assoc_char (cur : string) (c : ascii) (s : string) :
  (cur ++ String c "") ++ s = cur ++ String c s.
Proof.
  induction cur as [|a cur IH]; [reflexivity|].
  change (String a ((cur ++ String c "") ++ s) = String a (cur ++ String c s)).
  f_equal. exact IH.
Qed.

Lemma app_empty_r (s : string) : s ++ "" = s.
Proof.
  induction s as [|a s IH]; [reflexivity|].
  change (String a (s ++ "") = String a s). f_equal. exact IH.
Qed.

Lemma startswith_app (l post : string) : startswith l (l ++ post) = true.
Proof.
  induction l as [|a l IH]; [reflexivity|]. simpl.
  rewrite Ascii.eqb_refl. exact IH.
Qed.

Lemma startswith_inv (l s : string) :
  startswith l s = true ->
  s = l ++ drop_chars (String.length l) s.
Proof.
  revert s. induction l as [|a l IH]; intros s H; [reflexivity|].
  destruct s as [|b s]; [discriminate H|]. simpl in H.
  apply andb_prop in H as [Hab Hs]. apply Ascii.eqb_eq in Hab. subst b.
  change (String a s = String a (l ++ drop_chars (String.length l) s)).
  f_equal. apply IH, Hs.
Qed.

Lemma drop_chars_app (l post : string) :
  drop_chars (String.length l) (l ++ post) = post.
Proof. induction l as [|a l IH]; [reflexivity | exact IH]. Qed.

Lemma last_char_word (l : string) (prev : option ascii) :
  l <> "" -> all_chars is_word l = true ->
  is_word_opt (last_char prev l) = true.
Proof.
  revert prev. induction l as [|a l IH]; intros prev Hne Hall;
    [congruence|].
  simpl in Hall. apply andb_prop in Hall as [Ha Hl]. simpl.
  destruct l as [|b l]; [exact Ha|].
  apply IH; [discriminate | exact Hl].
Qed.

Lemma head_char_app (l post : string) :
  l <> "" -> head_char (l ++ post) = head_char l.
Proof. destruct l; [congruence | reflexivity]. Qed.

Lemma head_word (l : string) :
  l <> "" -> all_chars is_word l = true ->
  is_word_opt (head_char l) = true.
Proof.
  destruct l as [|a l]; [congruence|]. simpl. intros _ H.
  apply andb_prop in H as [Ha _]. exact Ha.
Qed.

Lemma word_prefix_app (l post : string) :
  all_chars is_word l = true ->
  is_word_opt (head_char post) = false ->
  word_prefix (l ++ post) = l.
Proof.
  intros Hall Hpost. induction l as [|a l IH].
  - destruct post as [|b post]; [reflexivity|].
    simpl in *. rewrite Hpost. reflexivity.
  - simpl in *. apply andb_prop in Hall as [Ha Hl].
    rewrite Ha, (IH Hl). reflexivity.
Qed.

Lemma word_prefix_split (s : string) :
  exists post,
    s = word_prefix s ++ post
    /\ is_word_opt (head_char post) = false
    /\ all_chars is_word (word_prefix s) = true.
Proof.
  induction s as [|c s (post & E & Hp & Hall)].
  - exists "". repeat split.
  - simpl. destruct (is_word c) eqn:Ew.
    + exists post. split; [|split; [exact Hp|]].
      * change (String c s = String c (word_prefix s ++ post)).
        f_equal. exact E.
      * simpl. rewrite Ew. exact Hall.
    + exists (String c s). split; [reflexivity|].
      split; [simpl; exact Ew | reflexivity].
Qed.

Lemma search_word_from_unfold (literal : string) (prev : option ascii)
    (s : string) :
  search_word_from literal prev s
  = word_match_here literal prev s || found_later literal s.
Proof. destruct s; reflexivity. Qed.

Section Literal.

Variable literal : string.
Hypothesis literal_nonempty : literal <> "".
Hypothesis literal_word : all_chars is_word literal = true.

(** At a position that follows a word character the pattern cannot
    start. *)
Lemma no_match_inside_word (prev : option ascii) (s : string) :
  is_word_opt prev = true -> word_match_here literal prev s = false.
Proof using literal_nonempty literal_word.
  intros Hprev. unfold word_match_here.
  destruct (startswith literal s) eqn:Es; [|reflexivity].
  rewrite (startswith_inv _ _ Es), head_char_app by exact literal_nonempty.
  unfold at_boundary at 1. fold (is_word_opt prev).
  fold (is_word_opt (head_char literal)).
  rewrite Hprev, (head_word _ literal_nonempty literal_word).
  reflexivity.
Qed.

(** At the start of the text or after a character that is not a
    word character, the pattern matches exactly when the literal is
    the whole word that starts there. *)
Lemma match_at_word_start (prev : option ascii) (s : string) :
  is_word_opt prev = false ->
  word_match_here literal prev s = true <-> word_prefix s = literal.
Proof using literal_nonempty literal_word.
  intros Hprev. unfold word_match_here. split.
  - intros H. apply andb_prop in H as [H Hafter].
    apply andb_prop in H as [Es _].
    rewrite (startswith_inv _ _ Es).
    apply word_prefix_app; [exact literal_word|].
    unfold at_boundary in Hafter.
    fold (is_word_opt (last_char prev literal)) in Hafter.
    fold (is_word_opt
            (head_char (drop_chars (String.length literal) s)))
      in Hafter.
    rewrite (last_char_word _ prev literal_nonempty literal_word)
      in Hafter.
    destruct (is_word_opt
                (head_char (drop_chars (String.length literal) s)));
      [discriminate Hafter | reflexivity].
  - intros E. destruct (word_prefix_split s) as (post & Hs & Hpost & _).
    rewrite E in Hs. rewrite Hs.
    rewrite startswith_app, drop_chars_app,
      head_char_app by exact literal_nonempty.
    unfold at_boundary.
    fold (is_word_opt prev). fold (is_word_opt (head_char literal)).
    fold (is_word_opt (last_char prev literal)).
    fold (is_word_opt (head_char post)).
    rewrite Hprev, Hpost, (head_word _ literal_nonempty literal_word),
      (last_char_word _ prev literal_nonempty literal_word).
    reflexivity.
Qed.

Lemma runs_or_later (s cur : string) :
  literal ∈ word_runs cur s
  <-> cur ++ word_prefix s = literal \/ found_later literal s = true.
Proof using literal_nonempty literal_word.
  revert cur. induction s as [|c s IH]; intros cur.
  - simpl. rewrite app_empty_r.
    destruct cur as [|a cur]; simpl.
    + split; [intros H; inversion H | intros [H|H]; congruence].
    + rewrite list_elem_of_singleton.
      split; [intros ->; left; reflexivity | intros [H|H]; congruence].
  - simpl word_runs. simpl word_prefix.
    change (found_later literal (String c s))
      with (search_word_from literal (Some c) s).
    rewrite search_word_from_unfold.
    destruct (is_word c) eqn:Ew.
    + rewrite IH, app_assoc_char.
      rewrite (no_match_inside_word (Some c) s Ew). simpl orb.
      reflexivity.
    + rewrite app_empty_r.
      assert (Hhere : word_match_here literal (Some c) s = true
                      <-> word_prefix s = literal)
        by (apply match_at_word_start; exact Ew).
      assert (Hrest : literal ∈ word_runs "" s
                      <-> word_match_here literal (Some c) s
                          || found_later literal s = true).
      { rewrite IH, orb_true_iff, Hhere. reflexivity. }
      destruct cur as [|a cur]; simpl is_empty; cbv iota.
      * rewrite Hrest. split; [intros H; right; exact H|].
        intros [H|H]; [congruence | exact H].
      * rewrite elem_of_cons, Hrest.
        split; intros [H|H]; auto.
Qed.

Lemma search_word_runs (s : string) :
  search_word literal s = true <-> literal ∈ word_runs "" s.
Proof using literal_nonempty literal_word.
  rewrite runs_or_later. simpl.
  unfold search_word.
  rewrite search_word_from_unfold, orb_true_iff.
  rewrite (match_at_word_start None s) by reflexivity. reflexivity.
Qed.

End Literal.

(** X9: a required term whose lower-cased form is one word (not
    empty, made of word characters only) is found in a text by the
    whole-word pattern exactly when it is one of the text's tokens;
    so it is never found inside a longer word. *)
Theorem term_found_iff_token (text term : string) :
  lower term <> "" -> all_chars is_word (lower term) = true ->
  term_found (lower text) term = true <-> lower term ∈ _tokenize text.
Proof.
  intros Hne Hword. unfold term_found.
  rewrite tokenize_word_runs. apply search_word_runs; assumption.
Qed.

Lemma term_found_iff_token_witness :
  (lower "Cat" <> "" /\ all_chars is_word (lower "Cat") = true)
  /\ term_found (lower "A caterpillar, not a CAT.") "Cat" = true
  /\ lower "Cat" ∈ _tokenize "A caterpillar, not a CAT."
  /\ term_found (lower "A caterpillar") "Cat" = false.
Proof.
  split; [split; [vm_compute; discriminate | vm_compute; reflexivity]|].
  assert (H : term_found (lower "A caterpillar, not a CAT.") "Cat" = true)
    by (vm_compute; reflexivity).
  split; [exact H|]. split; [|vm_compute; reflexivity].
  apply (term_found_iff_token "A caterpillar, not a CAT." "Cat");
    [vm_compute; discriminate | vm_compute; reflexivity | exact H].
Defined.

End WordFacts.

Module EmptyTextFacts.

Import Str Stated Vocabulary PyFacts StrFacts TextSimilarity
       TextSimilarityFacts SetMetricFacts.

Lemma sum_from_zeros (l : list Z) (acc : Z) :
  Forall (fun v => v = 0) l -> fold_left Z.add l acc = acc.
Proof.
  revert acc. induction l as [|v l IH]; intros acc H; [reflexivity|].
  simpl. rewrite (Forall_inv H), Z.add_0_r.
  apply IH, (Forall_inv_tail H).
Qed.

Lemma squares_of_no_words (vocab : list string) :
  Seq.sum (map (fun v => v * v) (map (counter []) vocab)) = 0.
Proof.
  unfold Seq.sum. apply sum_from_zeros.
  apply List.Forall_map, List.Forall_map, Forall_forall.
  intros w _. reflexivity.
Qed.

Lemma cosine_no_words (text1 text2 : string) :
  _tokenize text1 = [] \/ _tokenize text2 = [] ->
  cosine_similarity text1 text2 = fzero.
Proof.
  intros H. unfold cosine_similarity.
  destruct H as [E|E]; rewrite E.
  - rewrite squares_of_no_words. reflexivity.
  - rewrite squares_of_no_words.
    change (fsqrt_ieee (float_of_Z 0)) with fzero.
    change (is_zero fzero) with true. rewrite orb_true_r. reflexivity.
Qed.

Lemma float_of_zero_ratio (b : Z) : float_of_Q (ratio 0 b) = fzero.
Proof. destruct b; reflexivity. Qed.

Lemma inter_empty_l (text1 text2 : string) :
  _tokenize text1 = [] \/ _tokenize text2 = [] ->
  len_set (word_set text1 ∩ word_set text2) = 0
  /\ Z.min (len_set (word_set text1)) (len_set (word_set text2)) = 0.
Proof.
  intros H. unfold len_set.
  assert (word_set text1 = ∅ \/ word_set text2 = ∅) as [E|E]
    by (destruct H; [left | right]; apply word_set_empty; assumption);
    rewrite E.
  - rewrite intersection_empty_l_L, size_empty. lia.
  - rewrite intersection_empty_r_L, size_empty. lia.
Qed.

Lemma get_ngrams_no_words (n : Z) : 1 <= n -> _get_ngrams [] n = [].
Proof.
  intros Hn. unfold _get_ngrams, Seq.range.
  replace (Z.to_nat (Z.of_nat (length ([] : list string)) - n + 1))
    with O by (simpl; lia).
  reflexivity.
Qed.

Lemma precision_no_words (text1 text2 : string) (n : Z) :
  _tokenize text1 = [] \/ _tokenize text2 = [] -> 1 <= n ->
  float_of_Q (ngram_precision text1 text2 n) = fzero.
Proof.
  intros H Hn.
  destruct (_get_ngrams (_tokenize text2) n) as [|g l] eqn:E.
  { unfold ngram_precision. rewrite E. reflexivity. }
  destruct H as [H|H];
    [|rewrite H, get_ngrams_no_words in E by exact Hn; discriminate E].
  rewrite ngram_precision_value by (rewrite E; discriminate).
  rewrite H, get_ngrams_no_words by exact Hn.
  rewrite list_to_set_disj_nil.
  assert (Hempty : list_to_set_disj (_get_ngrams (_tokenize text2) n)
                   ∩ (∅ : gmultiset (list string)) = ∅)
    by multiset_solver.
  rewrite Hempty, gmultiset_size_empty. apply float_of_zero_ratio.
Qed.

(** X4: when one of the two texts has no token (it is empty, or made
    of blanks and punctuation only), every metric is zero: the cosine
    similarity, the Jaccard similarity, the overlap coefficient, the
    composite similarity, the n-gram precision of every order
    [n >= 1] and the BLEU score. *)
Theorem no_words_no_similarity (text1 text2 : string) :
  _tokenize text1 = [] \/ _tokenize text2 = [] ->
  cosine_similarity text1 text2 = fzero
  /\ (jaccard_similarity text1 text2 == 0)%Q
  /\ overlap_coefficient text1 text2 = 0%Q
  /\ composite_similarity text1 text2 = fzero
  /\ (forall n, 1 <= n ->
        float_of_Q (ngram_precision text1 text2 n) = fzero)
  /\ bleu_score text1 text2 = fzero.
Proof.
  intros H. destruct (inter_empty_l text1 text2 H) as [Hi Hm].
  assert (Hj : jaccard_similarity text1 text2 = 0%Q
               \/ exists u, jaccard_similarity text1 text2 = ratio 0 u).
  { unfold jaccard_similarity.
    destruct (len_set (word_set text1 ∪ word_set text2) =? 0);
      [left; reflexivity|].
    right. rewrite Hi. eexists. reflexivity. }
  assert (Ho : overlap_coefficient text1 text2 = 0%Q)
    by (unfold overlap_coefficient; rewrite Hm; reflexivity).
  split; [apply cosine_no_words, H|].
  split; [destruct Hj as [->|[u ->]]; [reflexivity | apply ratio_zero]|].
  split; [exact Ho|].
  split; [|split].
  - unfold composite_similarity.
    rewrite (cosine_no_words _ _ H), Ho.
    destruct Hj as [->|[u ->]]; [|rewrite float_of_zero_ratio];
      vm_compute; reflexivity.
  - intros n Hn. apply precision_no_words; assumption.
  - unfold bleu_score. rewrite !precision_no_words by (exact H || lia).
    vm_compute; reflexivity.
Qed.

Lemma no_words_no_similarity_witness :
  (_tokenize "?!" = [] \/ _tokenize "Customer reset password" = [])
  /\ composite_similarity "?!" "Customer reset password" = fzero
  /\ bleu_score "?!" "Customer reset password" = fzero.
Proof.
  split; [left; vm_compute; reflexivity|].
  destruct (no_words_no_similarity "?!" "Customer reset password")
    as (_ & _ & _ & Hc & _ & Hb); [left; vm_compute; reflexivity|].
  split; [exact Hc | exact Hb].
Defined.

End EmptyTextFacts.

Module EvaluatorMoreFacts.

Import Vocabulary Examples PyFacts PyMoreFacts TextSimilarity
       SummaryEvaluator EvaluatorFacts.

(** X11: [evaluate] raises exactly when the length validation of the
    summary raises, and then the same exception: it returns a result
    if and only if the length bounds of the test case are
    non-negative and in order, whatever the summary is. *)
Theorem evaluate_raises_as_validate_length (summary : string)
    (test_case : GoldenTestCase) (e : exn) :
  let th := thresholds test_case in
  (evaluate summary test_case = Raise e
   <-> validate_length summary (min_length_words th) (max_length_words th)
       = Raise e)
  /\ ((exists r, evaluate summary test_case = Ok r)
      <-> 0 <= min_length_words th <= max_length_words th).
Proof.
  intros th. unfold evaluate. fold th.
  destruct (validate_length summary (min_length_words th)
              (max_length_words th)) as [lc|e'] eqn:E.
  - rewrite bind_ok_l. split; [split; discriminate|].
    split; [|intros _; eexists; reflexivity].
    intros _. apply validate_length_inv in E. lia.
  - rewrite bind_raise. split; [split; intros H; congruence|].
    split; [intros [r Hr]; discriminate Hr|].
    intros [Hmin Hle].
    rewrite (validate_length_ok _ _ _ Hmin Hle) in E. discriminate E.
Qed.

Lemma evaluate_raises_as_validate_length_witness :
  (exists msg, evaluate "Customer asked about a charge" inverted_case
               = Raise (ValueError msg))
  /\ exists r, evaluate "Customer reset password" password_case = Ok r.
Proof.
  split.
  - destruct (validate_length "Customer asked about a charge" 10 3)
      as [lc|[msg|msg|msg|msg]] eqn:E; vm_compute in E; try discriminate E.
    exists msg.
    apply (evaluate_raises_as_validate_length
             "Customer asked about a charge" inverted_case
             (ValueError msg)).
    rewrite <- E. vm_compute; reflexivity.
  - apply (evaluate_raises_as_validate_length
             "Customer reset password" password_case
             (ValueError "")).
    vm_compute. split; discriminate.
Defined.




End EvaluatorMoreFacts.

Module CollectorMoreFacts.

Import Vocabulary Examples PyFacts PerformanceCollector CollectorFacts.
Import PyMoreFacts.

(** X13: ending, without token usage, the request that
    [start_request] has just opened appends exactly one metric and
    leaves no active request behind that was not there before.  The
    metric carries the request id, the start and end times in
    milliseconds and their difference as latency, has no cost, and
    counts as a success unless a non-empty error text was given. *)
Theorem start_then_end (clock_id clock_start clock_end : float)
    (self self1 : collector) (request_id : string)
    (error : option string) :
  start_request clock_id clock_start self = (self1, Ok request_id) ->
  exists metric,
    _end_request clock_end self1 request_id None error
    = ({| _metrics := (_metrics self ++ [metric])%list;
          _active_requests := delete request_id (_active_requests self);
          _request_counter := _request_counter self + 1 |}, Ok tt)
    /\ Metric.request_id metric = request_id
    /\ Metric.start_time metric = fmul clock_start (float_of_Z 1000)
    /\ Metric.end_time metric = Some (fmul clock_end (float_of_Z 1000))
    /\ Metric.latency metric
       = Some (fsub (fmul clock_end (float_of_Z 1000))
                    (fmul clock_start (float_of_Z 1000)))
    /\ Metric.success metric
       = match error with
         | Some (String _ _) => false
         | _ => true
         end
    /\ Metric.cost metric = None
    /\ (_active_requests self !! request_id = None ->
        delete request_id (_active_requests self) = _active_requests self).
Proof.
  unfold start_request.
  destruct (int_of_float (fmul clock_id (float_of_Z 1000))) as [stamp|e];
    [|intros H; discriminate H].
  intros H. injection H as <- <-.
  set (rid := "req_" ++ str_of_int (_request_counter self + 1) ++ "_"
              ++ str_of_int stamp).
  eexists. split.
  - unfold _end_request. cbn [_active_requests _metrics _request_counter].
    rewrite lookup_insert_eq, delete_insert_eq. reflexivity.
  - cbn. repeat split.
    + destruct error as [[|c s]|]; reflexivity.
    + apply delete_id.
Qed.

Lemma start_then_end_witness :
  start_request (float_of_Z 1700000000) (float_of_Z 1700000000) init
  = (started, Ok "req_1_1700000000000")
  /\ exists metric,
       _end_request (float_of_Z 1700000001) started "req_1_1700000000000"
                    None (Some "")
       = ({| _metrics := [metric]; _active_requests := ∅;
             _request_counter := 1 |}, Ok tt)
       /\ Metric.success metric = true
       /\ Metric.latency metric = Some (float_of_Z 1000).
Proof.
  assert (E : start_request (float_of_Z 1700000000) (float_of_Z 1700000000)
                init = (started, Ok "req_1_1700000000000"))
    by (vm_compute; reflexivity).
  split; [exact E|].
  destruct (start_then_end _ _ (float_of_Z 1700000001) _ _ _ (Some "") E)
    as (metric & Hend & _ & _ & _ & Hlat & Hsucc & _).
  exists metric. split; [exact Hend|]. split; [exact Hsucc|].
  rewrite Hlat. vm_compute; reflexivity.
Defined.

(** X14: in every report that is produced the request counts are
    those of the three accessors: the total is the number of metrics,
    the successes and failures are the numbers of metrics of either
    status; total = successes + failures, at least one request
    succeeded, and the total of tokens is the sum of the input and
    output totals. *)
Theorem report_counts (self : collector) (r : Report.t) :
  generate_report self = Ok r ->
  Report.total_requests r = Z.of_nat (length (get_metrics self))
  /\ Report.successful_requests r
     = Z.of_nat (length (get_metrics_by_status self true))
  /\ Report.failed_requests r
     = Z.of_nat (length (get_metrics_by_status self false))
  /\ Report.total_requests r
     = Report.successful_requests r + Report.failed_requests r
  /\ 0 < Report.successful_requests r
  /\ Report.total_tokens r
     = Report.total_input_tokens r + Report.total_output_tokens r.
Proof.
  intros Hrep.
  destruct (generate_report_ok self r Hrep)
    as (_ & Hlat & _ & _ & _ & Htot & Hsucc & Hfail & Hin & Hout & Htok & _).
  unfold get_metrics, get_metrics_by_status.
  fold (successful self).
  pose proof (filter_split_length Metric.success (_metrics self)) as Hsplit.
  fold (successful self) in Hsplit.
  rewrite Htot, Hsucc, Hfail, Hin, Hout, Htok.
  repeat split; try lia.
  destruct (successful self); [exfalso; apply Hlat; reflexivity|].
  simpl. lia.
Qed.

Lemma report_counts_witness :
  exists r,
    generate_report (record_metric failed_metric two_requests) = Ok r
    /\ Report.total_requests r = 3
    /\ Report.successful_requests r = 2
    /\ Report.failed_requests r = 1.
Proof.
  destruct (generate_report (record_metric failed_metric two_requests))
    as [r|e] eqn:E; [|vm_compute in E; discriminate E].
  exists r. split; [reflexivity|].
  destruct (report_counts _ r E) as (Ht & Hs & Hf & _).
  rewrite Ht, Hs, Hf. repeat split; vm_compute; reflexivity.
Defined.

(** X15: [_percentile] of an empty sample is 0.0, and whenever it
    returns for a non-empty sample the value is one of the sample's
    elements, for every [p] (out of range, infinite or not a number
    included): it neither interpolates nor reads out of range. *)
Theorem percentile_picks_a_sample (sorted_values : list float) (p : float) :
  (sorted_values = [] -> _percentile sorted_values p = Ok fzero)
  /\ (forall v, sorted_values <> [] ->
        _percentile sorted_values p = Ok v -> v ∈ sorted_values).
Proof.
  split.
  - intros ->. reflexivity.
  - intros v Hne Hv. unfold _percentile in Hv.
    destruct (Z.eqb_spec (Z.of_nat (length sorted_values)) 0) as [Hz|Hz].
    { destruct sorted_values; [congruence | simpl in Hz; lia]. }
    apply bind_ok in Hv as (rank & _ & Hv). apply Ok_inj in Hv.
    set (index := Z.max 0 (Z.min (rank - 1)
                              (Z.of_nat (length sorted_values) - 1))) in Hv.
    destruct (sorted_values !! Z.to_nat index) as [x|] eqn:Hx.
    + simpl in Hv. subst x. eapply list_elem_of_lookup_2. exact Hx.
    + apply lookup_ge_None in Hx. unfold index in Hx. lia.
Qed.

Lemma percentile_picks_a_sample_witness :
  sample_1_to 10 <> []
  /\ _percentile (sample_1_to 10) (float_of_Z 50) = Ok (float_of_Z 5)
  /\ float_of_Z 5 ∈ sample_1_to 10.
Proof.
  assert (E : _percentile (sample_1_to 10) (float_of_Z 50)
              = Ok (float_of_Z 5)) by (vm_compute; reflexivity).
  split; [vm_compute; discriminate|]. split; [exact E|].
  apply (percentile_picks_a_sample (sample_1_to 10) (float_of_Z 50));
    [vm_compute; discriminate | exact E].
Defined.

(** X16: after [clear] the collector reports as if nothing had been
    recorded, raising the no-metrics ValueError, and every request
    id, those still active before the call included, is unknown to
    [_end_request]. *)
Theorem clear_forgets (self : collector) :
  generate_report (clear self) = Raise NO_METRICS
  /\ forall clock request_id usage error,
       _end_request clock (clear self) request_id usage error
       = (clear self, Raise (not_found request_id)).
Proof.
  split; [reflexivity|]. intros clock request_id usage error.
  apply end_request_missing. apply lookup_empty.
Qed.

End CollectorMoreFacts.

Module SLOFacts.

Import Vocabulary Examples PyFacts PerformanceCollector CollectorFacts.
Import PyMoreFacts.



End SLOFacts.

Module IdFacts.
Import Str Stated Vocabulary Examples PyFacts StrFacts PerformanceCollector
       CollectorFacts.

Lemma string_of_uint_digits (d : Decimal.uint) :
  no_underscore (NilEmpty.string_of_uint d) = true.
Proof.
  unfold no_underscore.
  induction d as [|d IH|d IH|d IH|d IH|d IH|d IH|d IH|d IH|d IH|d IH];
    [reflexivity | exact IH ..].
Qed.

Lemma nilzero_digits (d : Decimal.uint) :
  no_underscore (NilZero.string_of_uint d) = true.
Proof. destruct d; first [reflexivity | apply string_of_uint_digits]. Qed.

Lemma str_of_int_digits (n : Z) : no_underscore (str_of_int n) = true.
Proof.
  unfold str_of_int, NilZero.string_of_int.
  destruct (Z.to_int n) as [d|d]; [apply nilzero_digits|].
  pose proof (nilzero_digits d) as H. unfold no_underscore in *.
  simpl. exact H.
Qed.

Lemma str_of_int_inj (a b : Z) : str_of_int a = str_of_int b -> a = b.
Proof.
  assert (Hnil : forall n, Z.to_int n <> Decimal.Pos Decimal.Nil
                           /\ Z.to_int n <> Decimal.Neg Decimal.Nil).
  { intros [|p|p]; split; try discriminate; simpl; intros H;
      injection H as H; exact (Unsigned.to_uint_nonnil p H). }
  unfold str_of_int. intros E.
  apply DecimalZ.to_int_inj.
  apply (f_equal NilZero.int_of_string) in E.
  rewrite !NilZero.isi in E by apply Hnil.
  injection E as E. exact E.
Qed.

Lemma underscore_split (s t X Y : string) :
  no_underscore s = true -> no_underscore t = true ->
  s ++ String "_" X = t ++ String "_" Y -> s = t.
Proof.
  unfold no_underscore.
  revert t. induction s as [|a s IH]; intros [|b t] Hs Ht E.
  - reflexivity.
  - exfalso. change (String "_" X = String b (t ++ String "_" Y)) in E.
    injection E as Eb _. subst b. discriminate Ht.
  - exfalso. change (String a (s ++ String "_" X) = String "_" Y) in E.
    injection E as Ea _. subst a. discriminate Hs.
  - change (String a (s ++ String "_" X) = String b (t ++ String "_" Y))
      in E.
    injection E as Eab E. subst b.
    simpl in Hs, Ht. apply andb_prop in Hs as [_ Hs].
    apply andb_prop in Ht as [_ Ht].
    f_equal. apply (IH t Hs Ht E).
Qed.

Lemma request_id_of_counter (k k' stamp stamp' : Z) :
  request_id_of k stamp = request_id_of k' stamp' -> k = k'.
Proof.
  unfold request_id_of. intros E.
  change ("req_" ++ str_of_int k ++ "_" ++ str_of_int stamp)
    with (String "r" (String "e" (String "q" (String "_"
            (str_of_int k ++ String "_" (str_of_int stamp)))))) in E.
  change ("req_" ++ str_of_int k' ++ "_" ++ str_of_int stamp')
    with (String "r" (String "e" (String "q" (String "_"
            (str_of_int k' ++ String "_" (str_of_int stamp')))))) in E.
  injection E as E.
  apply str_of_int_inj.
  apply (underscore_split _ _ _ _ (str_of_int_digits k)
           (str_of_int_digits k') E).
Qed.

Lemma ids_numbered_init : ids_numbered init.
Proof.
  intros id metric H. unfold init in H. cbn [_active_requests] in H.
  rewrite lookup_empty in H. discriminate H.
Qed.

Lemma ids_numbered_start (clock_id clock_start : float) (self : collector) :
  ids_numbered self ->
  ids_numbered (fst (start_request clock_id clock_start self)).
Proof.
  intros Hinv. unfold start_request.
  destruct (int_of_float (fmul clock_id (float_of_Z 1000))) as [stamp|e];
    cbn [fst]; intros id metric H; cbn [_active_requests _request_counter]
    in *.
  - fold (request_id_of (_request_counter self + 1) stamp) in H.
    destruct (decide (request_id_of (_request_counter self + 1) stamp = id))
      as [<-|Hne].
    + rewrite lookup_insert_eq in H. injection H as <-.
      split; [reflexivity|]. eexists _, _. split; [reflexivity | lia].
    + rewrite lookup_insert_ne in H by exact Hne.
      destruct (Hinv id metric H) as (Hid & k & s & E & Hk).
      split; [exact Hid|]. exists k, s. split; [exact E | lia].
  - destruct (Hinv id metric H) as (Hid & k & s & E & Hk).
    split; [exact Hid|]. exists k, s. split; [exact E | lia].
Qed.

Lemma ids_numbered_end (clock : float) (self : collector)
    (request_id : string) (usage : option TokenUsage.t)
    (error : option string) :
  ids_numbered self ->
  ids_numbered (fst (_end_request clock self request_id usage error)).
Proof.
  intros Hinv. unfold _end_request.
  destruct (_active_requests self !! request_id) as [found|] eqn:Hfound;
    [|exact Hinv].
  assert (Hdel : forall m,
            ids_numbered
              {| _metrics := (_metrics self ++ [m])%list;
                 _active_requests :=
                   delete request_id (_active_requests self);
                 _request_counter := _request_counter self |}).
  { intros m id metric H. cbn [_active_requests _request_counter] in *.
    apply lookup_delete_Some in H as [_ H]. exact (Hinv id metric H). }
  destruct usage as [u|]; [|apply Hdel].
  destruct (_calculate_cost u) as [c|e]; [apply Hdel|].
  cbn [fst]. intros id metric H.
  cbn [_active_requests _request_counter] in *.
  destruct (decide (request_id = id)) as [<-|Hne].
  - rewrite lookup_insert_eq in H. injection H as <-.
    destruct (Hinv request_id found Hfound) as (Hid & Hk).
    split; [exact Hid | exact Hk].
  - rewrite lookup_insert_ne in H by exact Hne. exact (Hinv id metric H).
Qed.

Lemma reachable_ids_numbered (self : collector) :
  reachable self -> ids_numbered self.
Proof.
  induction 1 as [|c1 c2 self _ IH|clock self rid usage error _ IH
                 |metric self _ IH|self _ _].
  - apply ids_numbered_init.
  - apply ids_numbered_start, IH.
  - apply ids_numbered_end, IH.
  - exact IH.
  - apply ids_numbered_init.
Qed.

(** X24: in a collector reached from a new one through
    [start_request], [_end_request], [record_metric] and [clear],
    the id [start_request] hands out is never that of a request
    still in flight, even when the clock has not advanced: the call
    adds exactly one active request, leaves the others and the
    finished metrics as they were, and every active request is
    stored under its own id. *)
Theorem start_request_fresh (clock_id clock_start : float)
    (self self' : collector) (request_id : string) :
  reachable self ->
  start_request clock_id clock_start self = (self', Ok request_id) ->
  _active_requests self !! request_id = None
  /\ size (_active_requests self') = S (size (_active_requests self))
  /\ (forall other, other <> request_id ->
        _active_requests self' !! other = _active_requests self !! other)
  /\ (forall id metric, _active_requests self' !! id = Some metric ->
        Metric.request_id metric = id)
  /\ _metrics self' = _metrics self.
Proof.
  intros Hreach Hstart.
  pose proof (reachable_ids_numbered _ (reach_start clock_id clock_start
                                          self Hreach)) as Hinv'.
  rewrite Hstart in Hinv'. cbn [fst] in Hinv'.
  pose proof (reachable_ids_numbered self Hreach) as Hinv.
  unfold start_request in Hstart.
  destruct (int_of_float (fmul clock_id (float_of_Z 1000))) as [stamp|e];
    [|discriminate Hstart].
  fold (request_id_of (_request_counter self + 1) stamp) in Hstart.
  injection Hstart as <- <-.
  assert (Hfresh : _active_requests self
                   !! request_id_of (_request_counter self + 1) stamp
                   = None).
  { destruct (_active_requests self
              !! request_id_of (_request_counter self + 1) stamp)
      as [metric|] eqn:Hin; [|reflexivity].
    destruct (Hinv _ _ Hin) as (_ & k & s & E & Hk).
    apply request_id_of_counter in E. lia. }
  split; [exact Hfresh|]. cbn [_active_requests _metrics].
  split; [apply map_size_insert_None, Hfresh|].
  split; [intros other Hne; apply lookup_insert_ne; congruence|].
  split; [|reflexivity].
  intros id metric H. exact (proj1 (Hinv' id metric H)).
Qed.

Lemma start_request_fresh_witness :
  reachable Examples.started
  /\ exists self' request_id,
       start_request (float_of_Z 1700000000) (float_of_Z 1700000000)
                     Examples.started = (self', Ok request_id)
       /\ _active_requests Examples.started !! request_id = None
       /\ size (_active_requests self') = 2%nat.
Proof.
  assert (Hreach : reachable Examples.started)
    by (apply reach_start, reach_init).
  split; [exact Hreach|].
  destruct (start_request (float_of_Z 1700000000) (float_of_Z 1700000000)
              Examples.started) as [self' [request_id|e]] eqn:E;
    [|vm_compute in E; discriminate E].
  exists self', request_id. split; [reflexivity|].
  destruct (start_request_fresh _ _ _ _ _ Hreach E) as (Hfresh & Hsize & _).
  split; [exact Hfresh|]. rewrite Hsize. reflexivity.
Defined.
Lemma continues_reachable (self later : collector) :
  reachable self -> continues self later -> reachable later.
Proof.
  intros Hself. induction 1; [assumption | constructor; assumption ..].
Qed.

Lemma stays_ended_step (self' later : collector) (id : string) (k stamp : Z) :
  id = request_id_of k stamp -> k <= _request_counter self' ->
  continues self' later ->
  _active_requests self' !! id = None ->
  stays_ended self' id later.
Proof.
  intros Eid Hk Hcont Hgone.
  induction Hcont as [|c1 c2 later _ (Hc & Hnone & more & Hm)
                      |clock later rid usage error _ (Hc & Hnone & more & Hm)
                      |metric later _ (Hc & Hnone & more & Hm)].
  - split; [lia|]. split; [exact Hgone|]. exists []. symmetry.
    apply app_nil_r.
  - unfold start_request.
    destruct (int_of_float (fmul c1 (float_of_Z 1000))) as [stamp'|e];
      cbn [fst]; (split; [cbn; lia|]);
      (split; [|exists more; exact Hm]); cbn [_active_requests].
    + fold (request_id_of (_request_counter later + 1) stamp').
      rewrite lookup_insert_ne; [exact Hnone|].
      rewrite Eid. intros E. apply request_id_of_counter in E. lia.
    + exact Hnone.
  - unfold _end_request.
    destruct (_active_requests later !! rid) as [found|] eqn:Hfound;
      [|split; [exact Hc|]; split; [exact Hnone|]; exists more; exact Hm].
    assert (Hne : rid <> id) by congruence.
    assert (Hdel : forall m,
              stays_ended self' id
                {| _metrics := (_metrics later ++ [m])%list;
                   _active_requests := delete rid (_active_requests later);
                   _request_counter := _request_counter later |}).
    { intros m. split; [exact Hc|]. split.
      - cbn. rewrite lookup_delete_ne by exact Hne. exact Hnone.
      - exists (more ++ [m])%list. cbn. rewrite Hm, app_assoc. reflexivity. }
    destruct usage as [u|]; [|apply Hdel].
    destruct (_calculate_cost u) as [c|e]; [apply Hdel|].
    cbn [fst]. split; [exact Hc|]. split; [|exists more; exact Hm].
    cbn. rewrite lookup_insert_ne by exact Hne. exact Hnone.
  - split; [exact Hc|]. split; [exact Hnone|].
    exists (more ++ [metric])%list. cbn. rewrite Hm, app_assoc. reflexivity.
Qed.

(** X25: in a collector reached through the public calls, a request
    that was ended stays ended for as long as the collector is not
    cleared: whatever requests are started, ended or recorded
    afterwards, ending it again raises the not-found ValueError and
    leaves the collector as it is, and the metrics finalized so far
    keep their places. *)
Theorem ended_request_stays_ended (clock : float) (self self' later : collector)
    (request_id : string) (usage : option TokenUsage.t)
    (error : option string) :
  reachable self ->
  _end_request clock self request_id usage error = (self', Ok tt) ->
  continues self' later ->
  (forall clock' usage' error',
     _end_request clock' later request_id usage' error'
     = (later, Raise (not_found request_id)))
  /\ exists more, _metrics later = (_metrics self' ++ more)%list.
Proof.
  intros Hreach Hend Hcont.
  assert (Hactive : exists metric,
            _active_requests self !! request_id = Some metric).
  { unfold _end_request in Hend.
    destruct (_active_requests self !! request_id) as [metric|];
      [eexists; reflexivity | discriminate Hend]. }
  destruct Hactive as (metric & Hactive).
  destruct (reachable_ids_numbered self Hreach _ _ Hactive)
    as (_ & k & stamp & Eid & Hk).
  pose proof (end_request_removes _ _ _ _ _ _ Hend) as Hremoved.
  assert (Hcounter : _request_counter self' = _request_counter self).
  { unfold _end_request in Hend. rewrite Hactive in Hend.
    destruct usage as [u|];
      [destruct (_calculate_cost u); [|discriminate Hend]|];
      injection Hend as <-; reflexivity. }
  destruct (stays_ended_step self' later request_id k stamp Eid)
    as (_ & Hnone & Hmore);
    [lia | exact Hcont | rewrite Hremoved; apply lookup_delete_eq |].
  split; [|exact Hmore].
  intros clock' usage' error'. apply end_request_missing, Hnone.
Qed.

Lemma ended_request_stays_ended_witness :
  reachable started
  /\ _end_request (float_of_Z 1700000001) started "req_1_1700000000000"
                  None None = (ended, Ok tt)
  /\ continues ended
       (fst (start_request (float_of_Z 1700000001) (float_of_Z 1700000001)
                           ended))
  /\ _end_request (float_of_Z 1700000002)
       (fst (start_request (float_of_Z 1700000001) (float_of_Z 1700000001)
                           ended))
       "req_1_1700000000000" None None
     = (fst (start_request (float_of_Z 1700000001) (float_of_Z 1700000001)
                           ended),
        Raise (not_found "req_1_1700000000000")).
Proof.
  assert (Hreach : reachable started) by (apply reach_start, reach_init).
  assert (Hend : _end_request (float_of_Z 1700000001) started
                   "req_1_1700000000000" None None = (ended, Ok tt))
    by (vm_compute; reflexivity).
  assert (Hcont : continues ended
            (fst (start_request (float_of_Z 1700000001)
                    (float_of_Z 1700000001) ended)))
    by (apply cont_start, cont_here).
  split; [exact Hreach|]. split; [exact Hend|]. split; [exact Hcont|].
  destruct (ended_request_stays_ended _ _ _ _ _ _ _ Hreach Hend Hcont)
    as [H _].
  apply H.
Defined.

End IdFacts.

Module AggregatorMoreFacts.

Import Vocabulary Examples PyFacts MetricsAggregator AggregatorFacts.
Import PyMoreFacts.

Lemma last_n_drop {A : Type} (l : list A) (count : Z) :
  0 < count ->
  Seq.last_n l count = drop (length l - Z.to_nat count) l.
Proof.
  intros Hc. unfold Seq.last_n, Seq.clamp_index.
  replace (- count <? 0) with true by (symmetry; apply Z.ltb_lt; lia).
  f_equal. lia.
Qed.

Lemma recorded_history (result : TestRunResult) (self : aggregator) :
  history (record_test_run result self)
  = drop (length (history self) + 1 - 100) (history self ++ [result]).
Proof.
  unfold record_test_run, MAX_HISTORY_RUNS, len.
  cbn [history]. rewrite length_app. simpl length.
  destruct (Z.gtb_spec (Z.of_nat (length (history self) + 1)) 100).
  - rewrite last_n_drop by lia. rewrite length_app. simpl length.
    f_equal.
  - replace (length (history self) + 1 - 100)%nat with O by lia.
    reflexivity.
Qed.

Lemma recorded_last (result : TestRunResult) (self : aggregator) :
  last (history (record_test_run result self)) = Some result.
Proof.
  rewrite recorded_history, last_drop by (rewrite length_app; simpl; lia).
  apply last_snoc.
Qed.

(** X18: recording a run appends it to the history and keeps the most
    recent 100 runs: the new history is the old one followed by the
    run, less its oldest entries beyond 100; the run just recorded is
    always the last one; the length grows by one up to 100 and stays
    there; the thresholds are untouched. *)
Theorem record_test_run_retention (result : TestRunResult)
    (self : aggregator) :
  let recorded := record_test_run result self in
  history recorded
  = drop (length (history self) + 1 - 100) (history self ++ [result])
  /\ last (history recorded) = Some result
  /\ len (history recorded) = Z.min (len (history self) + 1) 100
  /\ thresholds recorded = thresholds self.
Proof.
  intros recorded. unfold recorded.
  split; [apply recorded_history|].
  split; [apply recorded_last|].
  split; [|reflexivity].
  rewrite recorded_history. unfold len.
  rewrite length_drop, length_app. simpl. lia.
Qed.

(** X19: [get_recent_runs] with a positive count returns the last
    [count] runs of the history in order, all of them when there are
    fewer; with count 0 it returns the whole history, and with a
    negative count the history without its first [-count] runs, not
    an empty list; and one recent run after recording is the run
    just recorded. *)
Theorem get_recent_runs_window (self : aggregator) (count : Z) :
  (0 < count ->
   get_recent_runs self count
   = drop (length (history self) - Z.to_nat count) (history self)
   /\ len (get_recent_runs self count) = Z.min count (len (history self)))
  /\ (count = 0 -> get_recent_runs self count = history self)
  /\ (count < 0 ->
      get_recent_runs self count
      = drop (Z.to_nat (- count)) (history self))
  /\ (forall result,
        get_recent_runs (record_test_run result self) 1 = [result]).
Proof.
  split; [|split; [|split]].
  - intros Hc. rewrite get_recent_runs_drop by exact Hc.
    split; [reflexivity|]. unfold len. rewrite length_drop. lia.
  - intros ->. unfold get_recent_runs, len.
    replace (Z.of_nat (length (history self)) >=? 0) with true
      by (symmetry; apply Z.geb_le; lia).
    unfold Seq.last_n, Seq.clamp_index. simpl Z.opp. simpl Z.ltb.
    rewrite Z.min_l by lia. reflexivity.
  - intros Hc. unfold get_recent_runs, len.
    replace (Z.of_nat (length (history self)) >=? count) with true
      by (symmetry; apply Z.geb_le; lia).
    unfold Seq.last_n, Seq.clamp_index.
    replace (- count <? 0) with false by (symmetry; apply Z.ltb_ge; lia).
    destruct (Z.le_gt_cases (- count) (Z.of_nat (length (history self)))).
    + rewrite Z.min_l by lia. reflexivity.
    + rewrite Z.min_r by lia. rewrite Nat2Z.id.
      rewrite !drop_ge by lia. reflexivity.
  - intros result.
    pose proof (recorded_last result self) as Hlast.
    rewrite get_recent_runs_drop by lia.
    set (h := history (record_test_run result self)) in *.
    assert (Hpos : (0 < length h)%nat)
      by (destruct h; [discriminate Hlast | simpl; lia]).
    rewrite last_lookup in Hlast.
    rewrite (drop_S h result (length h - Z.to_nat 1));
      [|rewrite <- Hlast; f_equal; lia].
    rewrite drop_ge by lia. reflexivity.
Qed.

Lemma get_recent_runs_window_witness :
  (0 < 2
   /\ get_recent_runs (with_history slipping_history) 2
      = [run 100 100 None; run 100 94 None])
  /\ (-1 < 0
      /\ get_recent_runs (with_history slipping_history) (-1)
         = [run 100 100 None; run 100 100 None; run 100 94 None]).
Proof.
  destruct (get_recent_runs_window (with_history slipping_history) 2)
    as (H2 & _).
  destruct (get_recent_runs_window (with_history slipping_history) (-1))
    as (_ & _ & Hneg & _).
  split; split; try lia.
  - destruct H2 as [-> _]; [lia | reflexivity].
  - rewrite Hneg by lia. reflexivity.
Defined.

End AggregatorMoreFacts.

Module RegressionFacts.

Import Vocabulary Examples PyFacts MetricsAggregator AggregatorFacts.
Import PyMoreFacts AggregatorMoreFacts.

(** X20: [calculate_baseline] returns no baseline exactly when the
    window of recent runs holds fewer runs than the configured
    minimum.  A baseline that is returned counts the runs of the
    window, is labelled with the requested number of runs, averages
    the similarities and latencies of the runs that report one,
    carries the trend of the window, and has pass rate 0.0 when the
    window's runs executed no test. *)
Theorem baseline_availability (self : aggregator) (runs : Z) :
  let window := get_recent_runs self runs in
  (calculate_baseline self runs = Ok None
   <-> len window < min_test_runs (thresholds self))
  /\ (forall baseline,
        calculate_baseline self runs = Ok (Some baseline) ->
        Baseline.test_runs baseline = len window
        /\ Baseline.period baseline = "last_" ++ str_of_int runs ++ "_runs"
        /\ Baseline.avg_similarity baseline
           = _mean (omap avg_similarity window)
        /\ Baseline.avg_latency baseline = _mean (omap avg_latency window)
        /\ Baseline.trend baseline = _calculate_trend window
        /\ (Seq.sum (map total_tests window) <= 0 ->
            Baseline.avg_pass_rate baseline = fzero)).
Proof.
  intros window. unfold calculate_baseline. fold window.
  destruct (Z.ltb_spec (len window) (min_test_runs (thresholds self)))
    as [Hlt|Hge].
  - split; [split; [intros _; exact Hlt | reflexivity]|].
    intros baseline H. discriminate H.
  - split.
    + split; [|lia]. intros H.
      apply bind_ok in H as (rate & _ & H). discriminate H.
    + intros baseline H.
      apply bind_ok in H as (rate & Hrate & H).
      apply Ok_inj in H. injection H as <-. cbn.
      repeat split. intros Hsum.
      replace (Seq.sum (map total_tests window) >? 0) with false in Hrate
        by (symmetry; rewrite Z.gtb_ltb; apply Z.ltb_ge; lia).
      apply Ok_inj in Hrate. symmetry. exact Hrate.
Qed.

Lemma baseline_availability_witness :
  exists baseline,
    calculate_baseline (with_history slipping_history) 10
    = Ok (Some baseline)
    /\ Baseline.test_runs baseline = 4
    /\ Baseline.period baseline = "last_10_runs"
    /\ Baseline.trend baseline = stable.
Proof.
  destruct (calculate_baseline (with_history slipping_history) 10)
    as [[baseline|]|e] eqn:E; vm_compute in E; try discriminate E.
  exists baseline. split; [reflexivity|].
  destruct (baseline_availability (with_history slipping_history) 10)
    as (_ & H).
  assert (E' : calculate_baseline (with_history slipping_history) 10
               = Ok (Some baseline)) by (rewrite <- E; vm_compute; reflexivity).
  destruct (H baseline E') as (Hruns & Hperiod & _ & _ & Htrend & _).
  rewrite Hruns, Hperiod, Htrend. repeat split; vm_compute; reflexivity.
Defined.

Lemma mean_of_nothing : _mean [] = fzero.
Proof. reflexivity. Qed.

(** X21: [_calculate_trend] cuts the runs into a first half of
    [len / 2] runs and a second half with the rest, which is as long
    or one run longer; it answers stable for fewer than five runs,
    and also whenever one of the halves holds no run that reports a
    similarity. *)
Theorem trend_without_data_is_stable (runs : list TestRunResult) :
  let mid := len runs / 2 in
  let first_half := Seq.slice runs 0 mid in
  let second_half := Seq.slice runs mid (len runs) in
  (first_half ++ second_half)%list = runs
  /\ len first_half = len runs / 2
  /\ len first_half <= len second_half <= len first_half + 1
  /\ (len runs < 5 -> _calculate_trend runs = stable)
  /\ (omap avg_similarity first_half = []
      \/ omap avg_similarity second_half = [] ->
      _calculate_trend runs = stable).
Proof.
  intros mid first_half second_half.
  assert (Hmid : 0 <= mid <= len runs).
  { unfold mid, len. split; [apply Z.div_pos; lia|].
    apply Z.div_le_upper_bound; lia. }
  assert (Hfirst : first_half = take (Z.to_nat mid) runs).
  { unfold first_half, Seq.slice, Seq.clamp_index, len in *.
    simpl (0 <? 0).
    replace (mid <? 0) with false by (symmetry; apply Z.ltb_ge; lia).
    rewrite (Z.min_l 0) by lia. rewrite (Z.min_l mid) by lia.
    rewrite Z.sub_0_r. reflexivity. }
  assert (Hsecond : second_half = drop (Z.to_nat mid) runs).
  { unfold second_half, Seq.slice, Seq.clamp_index, len in *.
    replace (mid <? 0) with false by (symmetry; apply Z.ltb_ge; lia).
    replace (Z.of_nat (length runs) <? 0) with false
      by (symmetry; apply Z.ltb_ge; lia).
    rewrite (Z.min_l mid) by lia. rewrite Z.min_id.
    apply take_ge. rewrite length_drop. lia. }
  assert (Hlf : len first_half = mid).
  { rewrite Hfirst. unfold len. rewrite length_take. unfold len in Hmid. lia. }
  assert (Hls : len second_half = len runs - mid).
  { rewrite Hsecond. unfold len. rewrite length_drop. unfold len in Hmid. lia. }
  split; [rewrite Hfirst, Hsecond; apply take_drop|].
  split; [exact Hlf|].
  split.
  { rewrite Hlf, Hls. unfold mid.
    pose proof (Z.div_mod (len runs) 2 ltac:(lia)).
    pose proof (Z.mod_pos_bound (len runs) 2 ltac:(lia)). lia. }
  split.
  - intros Hshort. unfold _calculate_trend, MIN_RUNS_FOR_TREND.
    replace (len runs <? 5) with true by (symmetry; apply Z.ltb_lt; lia).
    reflexivity.
  - intros Hnone. unfold _calculate_trend.
    destruct (len runs <? MIN_RUNS_FOR_TREND); [reflexivity|].
    fold mid. fold first_half. fold second_half.
    destruct Hnone as [-> | ->]; rewrite mean_of_nothing.
    + reflexivity.
    + change (is_zero fzero) with true. rewrite orb_true_r. reflexivity.
Qed.

Lemma trend_without_data_is_stable_witness :
  (len [run 10 10 (Some (dec 5 10)); run 10 10 (Some (dec 9 10))] < 5
   /\ _calculate_trend
        [run 10 10 (Some (dec 5 10)); run 10 10 (Some (dec 9 10))] = stable)
  /\ (omap avg_similarity
        (Seq.slice (slipping_history ++ slipping_history)
           0 (len (slipping_history ++ slipping_history) / 2)) = []
      /\ _calculate_trend (slipping_history ++ slipping_history) = stable).
Proof.
  split.
  - split; [vm_compute; reflexivity|].
    destruct (trend_without_data_is_stable
                [run 10 10 (Some (dec 5 10)); run 10 10 (Some (dec 9 10))])
      as (_ & _ & _ & H & _).
    apply H. vm_compute; reflexivity.
  - split; [vm_compute; reflexivity|].
    destruct (trend_without_data_is_stable
                (slipping_history ++ slipping_history))
      as (_ & _ & _ & _ & H).
    apply H. left. vm_compute; reflexivity.
Defined.

End RegressionFacts.

Module AlertFacts.

Import Vocabulary Examples PyFacts MetricsAggregator AggregatorFacts.
Import PyMoreFacts AggregatorMoreFacts.

Lemma check_similarity_grows (self : aggregator) (latest : TestRunResult)
    (baseline : Baseline.t) (before after : list Alert.t) :
  check_similarity self latest baseline before = Ok after ->
  grown_by "similarity" latest before after.
Proof.
  unfold check_similarity.
  destruct (avg_similarity latest) as [s|];
    [|intros H; apply Ok_inj in H; left; congruence].
  intros H. apply bind_ok in H as (change & _ & H).
  destruct (fltb change (fopp (similarity_drop (thresholds self))));
    apply Ok_inj in H; [|left; congruence].
  right. eexists. split; [symmetry; exact H|]. split; reflexivity.
Qed.

Lemma check_latency_grows (self : aggregator) (latest : TestRunResult)
    (baseline : Baseline.t) (before after : list Alert.t) :
  check_latency self latest baseline before = Ok after ->
  grown_by "latency" latest before after.
Proof.
  unfold check_latency.
  destruct (avg_latency latest) as [l|];
    [|intros H; apply Ok_inj in H; left; congruence].
  destruct (fltb (float_of_Z 0) (Baseline.avg_latency baseline));
    [|intros H; apply Ok_inj in H; left; congruence].
  intros H. apply bind_ok in H as (change & _ & H).
  destruct (fltb (latency_increase (thresholds self)) change);
    apply Ok_inj in H; [|left; congruence].
  right. eexists. split; [symmetry; exact H|]. split; reflexivity.
Qed.

Lemma check_pass_rate_grows (self : aggregator) (latest : TestRunResult)
    (baseline : Baseline.t) (before after : list Alert.t) :
  check_pass_rate self latest baseline before = Ok after ->
  grown_by "pass_rate" latest before after.
Proof.
  unfold check_pass_rate.
  intros H. apply bind_ok in H as (rate & _ & H).
  destruct (fltb (fsub rate (Baseline.avg_pass_rate baseline))
                 (fopp (pass_rate_drop (thresholds self))));
    [|apply Ok_inj in H; left; congruence].
  apply bind_ok in H as (percent & _ & H). apply Ok_inj in H.
  right. eexists. split; [symmetry; exact H|]. split; reflexivity.
Qed.

Lemma compare_shape (self : aggregator) (latest : TestRunResult)
    (baseline : Baseline.t) (alerts : list Alert.t) :
  compare_with_baseline self latest baseline = Ok alerts ->
  (length alerts <= 3)%nat
  /\ sublist (map Alert.metric alerts) ["similarity"; "latency"; "pass_rate"]
  /\ Forall (fun a => Alert.timestamp a = timestamp latest) alerts.
Proof.
  unfold compare_with_baseline. intros H.
  apply bind_ok in H as (a1 & H1 & H).
  apply bind_ok in H as (a2 & H2 & H3).
  apply check_similarity_grows in H1.
  apply check_latency_grows in H2.
  apply check_pass_rate_grows in H3.
  destruct H1 as [->|(x1 & -> & Hm1 & Ht1)];
    destruct H2 as [->|(x2 & -> & Hm2 & Ht2)];
    destruct H3 as [->|(x3 & -> & Hm3 & Ht3)];
    cbn [app map length];
    rewrite ?Hm1, ?Hm2, ?Hm3;
    (split; [lia|]);
    (split;
     [repeat first [apply sublist_nil_l | apply sublist_skip
                   | apply sublist_cons]
     | repeat constructor; assumption]).
Qed.

(** X22: whenever [check_for_regressions] returns, it returns at most
    three alerts, at most one for each of similarity, latency and
    pass rate and in that order, and every alert bears the timestamp
    of the latest run. *)
Theorem regression_alerts_shape (self : aggregator)
    (alerts : list Alert.t) :
  check_for_regressions self = Ok alerts ->
  (length alerts <= 3)%nat
  /\ sublist (map Alert.metric alerts)
             ["similarity"; "latency"; "pass_rate"]
  /\ forall latest, last (history self) = Some latest ->
       Forall (fun a => Alert.timestamp a = timestamp latest) alerts.
Proof.
  unfold check_for_regressions. intros H.
  assert (Hnil : (length ([] : list Alert.t) <= 3)%nat
                 /\ sublist (map Alert.metric [])
                            ["similarity"; "latency"; "pass_rate"]
                 /\ forall latest, last (history self) = Some latest ->
                      Forall (fun a => Alert.timestamp a = timestamp latest)
                             []).
  { split; [simpl; lia|]. split; [apply sublist_nil_l|].
    intros latest _. constructor. }
  destruct (len (history self) <? min_test_runs (thresholds self) + 1);
    [apply Ok_inj in H; subst alerts; exact Hnil|].
  destruct (last (history self)) as [latest|]; [|discriminate H].
  apply bind_ok in H as ([baseline|] & _ & H);
    [|apply Ok_inj in H; subst alerts; exact Hnil].
  destruct (compare_shape _ _ _ _ H) as (Hlen & Hsub & Hts).
  split; [exact Hlen|]. split; [exact Hsub|].
  intros latest' E. injection E as <-. exact Hts.
Qed.

Lemma regression_alerts_shape_witness :
  exists alerts,
    check_for_regressions
      (with_history [good_run; good_run; good_run; good_run; bad_run])
    = Ok alerts
    /\ map Alert.metric alerts = ["similarity"; "latency"; "pass_rate"]
    /\ Forall (fun a => Alert.timestamp a = 9) alerts.
Proof.
  destruct (check_for_regressions
              (with_history [good_run; good_run; good_run; good_run; bad_run]))
    as [alerts|e] eqn:E; [|vm_compute in E; discriminate E].
  exists alerts. split; [reflexivity|].
  destruct (regression_alerts_shape _ alerts E) as (_ & _ & Hts).
  split; [|apply (Hts bad_run); reflexivity].
  vm_compute in E. apply Ok_inj in E. subst alerts. reflexivity.
Defined.

(** X23: when the history is long enough to be checked, the latest
    run reports a similarity and the baseline's average similarity
    is zero, [check_for_regressions] raises ZeroDivisionError: the
    relative change divides by the baseline average, and unlike the
    latency check the similarity check does not guard that divisor. *)
Theorem regression_check_zero_baseline (self : aggregator)
    (latest : TestRunResult) (similarity : float)
    (baseline : Baseline.t) :
  min_test_runs (thresholds self) + 1 <= len (history self) ->
  last (history self) = Some latest ->
  avg_similarity latest = Some similarity ->
  calculate_baseline self DEFAULT_BASELINE_RUNS = Ok (Some baseline) ->
  is_zero (Baseline.avg_similarity baseline) = true ->
  check_for_regressions self
  = Raise (ZeroDivisionError "float division by zero").
Proof.
  intros Hlong Hlast Hsim Hbase Hzero. unfold check_for_regressions.
  replace (len (history self) <? min_test_runs (thresholds self) + 1)
    with false by (symmetry; apply Z.ltb_ge; exact Hlong).
  rewrite Hlast, Hbase, bind_ok_l.
  unfold compare_with_baseline, check_similarity.
  rewrite Hsim. unfold truediv. rewrite Hzero. reflexivity.
Qed.

Lemma regression_check_zero_baseline_witness :
  check_for_regressions (with_history zero_similarity_history)
  = Raise (ZeroDivisionError "float division by zero").
Proof.
  destruct (calculate_baseline (with_history zero_similarity_history)
              DEFAULT_BASELINE_RUNS) as [[baseline|]|e] eqn:E;
    vm_compute in E; try discriminate E.
  apply (regression_check_zero_baseline
           (with_history zero_similarity_history)
           (run 10 10 (Some fzero)) fzero baseline);
    [vm_compute; discriminate | reflexivity | reflexivity | |].
  - rewrite <- E. vm_compute; reflexivity.
  - apply Ok_inj in E. injection E as <-. reflexivity.
Defined.

End AlertFacts.
